(** * Quant-Project: pairs-trading analytics pipeline

    A shallow embedding of the Python sources

      - [app/alerts/alert_engine.py]   (class [AlertEngine])
      - [app/analytics/zscore.py], [spread.py], [hedge_ratio.py]
      - [app/ingestion/binance_ws.py]  (the live update path)
      - [app/sampling/sampler.py]      (class [Sampler])

    Python [float] is IEEE-754 binary64 and is embedded as Rocq's primitive
    [float], so every comparison below has the NaN behaviour of the source.
    Python [None] is [option]'s [None]; a Python [dict] read by key is a
    [gmap]; a [dict] whose iteration order is observable is an association
    list in insertion order; a raised exception is a constructor of the
    result type. *)

From Stdlib Require Import ZArith Floats Lia.
From stdpp Require Import gmap strings list.

(** Decimal literals are read as Python reads them: the nearest double. *)
#[local] Set Warnings "-inexact-float".

Local Open Scope Z_scope.

(** ** Python values and float helpers *)

Module Py.

(** The values a result dictionary may hold. *)
Inductive pyval : Type :=
  | PyNone
  | PyBool (b : bool)
  | PyInt (n : Z)
  | PyFloat (f : float)
  | PyStr (s : string).

(** Python truth value testing, as [not v] and [if v] use it. A NaN is
    true: it differs from zero. *)
Definition truthy (v : pyval) : bool :=
  match v with
  | PyNone => false
  | PyBool b => b
  | PyInt n => negb (n =? 0)
  | PyFloat f => negb (f =? 0)%float
  | PyStr s => negb (String.eqb s "")
  end.

(** [d.get(key, default)]. *)
Definition dict_get (d : gmap string pyval) (key : string) (dflt : pyval) : pyval :=
  default dflt (d !! key).

(** The outcome of a call: a returned value or a raised [ValueError]. *)
Inductive result (A : Type) : Type :=
  | Return (a : A)
  | RaiseValueError (msg : string).
Arguments Return {A} a.
Arguments RaiseValueError {A} msg.

(** Builtin [max(a, b)] and [min(a, b)] on two arguments: the second
    argument replaces the first only when it compares strictly beyond it. *)
Definition max (a b : float) : float := if (a <? b)%float then b else a.
Definition min (a b : float) : float := if (b <? a)%float then b else a.

(** [float(n)] for a small non-negative integer (a length). *)
Definition float_of_nat (n : nat) : float :=
  PrimFloat.of_uint63 (Uint63.of_Z (Z.of_nat n)).

(** *** The order of floats, read on their binary representation

    [x < y] and [x <= y] on floats that are not NaN compare sign, exponent
    and mantissa; [key] maps a float to a triple of integers compared
    lexicographically in the same way. *)
Definition key (f : spec_float) : Z * Z * Z :=
  match f with
  | S754_nan => (0, 0, 0)
  | S754_zero _ => (0, 0, 0)
  | S754_infinity s => if s then (-2, 0, 0) else (2, 0, 0)
  | S754_finite s m e => if s then (-1, - e, - Z.pos m) else (1, e, Z.pos m)
  end.

Definition klt (a b : Z * Z * Z) : Prop :=
  a.1.1 < b.1.1 \/ (a.1.1 = b.1.1 /\ (a.1.2 < b.1.2 \/ (a.1.2 = b.1.2 /\ a.2 < b.2))).

Definition kle (a b : Z * Z * Z) : Prop :=
  a.1.1 < b.1.1 \/ (a.1.1 = b.1.1 /\ (a.1.2 < b.1.2 \/ (a.1.2 = b.1.2 /\ a.2 <= b.2))).

Definition fkey (x : float) : Z * Z * Z := key (Prim2SF x).

End Py.

(** The values Python's truth test takes for false, among those a result
    dictionary may hold: [None], [False], [0], [0.0] (and [-0.0]) and the
    empty string. *)
Module PyTruth.

Definition falsy (v : Py.pyval) : Prop :=
  v = Py.PyNone \/ v = Py.PyBool false \/ v = Py.PyInt 0 \/
  (exists f, v = Py.PyFloat f /\ (f =? 0)%float = true) \/
  v = Py.PyStr "".

(** The entry under ['is_stationary'] is missing or false by the truth
    test. *)
Definition not_stationary_entry (adf : gmap string Py.pyval) : Prop :=
  adf !! "is_stationary" = None \/
  exists v, adf !! "is_stationary" = Some v /\ falsy v.

End PyTruth.

(** ** alerts/alert_engine.py *)

Module AlertEngine.

(** [current_state] is [None], ['LONG'] or ['SHORT']. *)
Inductive signal : Type := LONG | SHORT.

Definition signal_str (s : signal) : string :=
  match s with LONG => "LONG" | SHORT => "SHORT" end.

Record engine : Type := mk_engine {
  threshold : float;
  reset_threshold : float;
  min_correlation : float;
  current_state : option signal
}.

(** [AlertEngine.__init__], defaults [2.0], [0.5], [0.7]. *)
Definition init (threshold reset_threshold min_correlation : float) : engine :=
  mk_engine threshold reset_threshold min_correlation None.

Definition default_engine : engine := init 2.0%float 0.5%float 0.7%float.

Definition set_state (self : engine) (s : option signal) : engine :=
  mk_engine (threshold self) (reset_threshold self) (min_correlation self) s.

(** The alert dictionary [evaluate] returns. *)
Record alert : Type := mk_alert {
  alert_timestamp : string;
  alert_signal : string;
  alert_z_score : float;
  alert_correlation : float;
  alert_reason : string
}.

Section Evaluate.

(** Python's float formatting, used only to render [reason]:
    [fmt_2f z] is [f"{z:.2f}"] and [str_float t] is [f"{t}"]. *)
Variable fmt_2f : float -> string.
Variable str_float : float -> string.

Definition short_reason (self : engine) (z : float) : string :=
  "Z-Score (" +:+ fmt_2f z +:+ ") >= Threshold (" +:+ str_float (threshold self)
    +:+ ") [Overbought]".

Definition long_reason (self : engine) (z : float) : string :=
  "Z-Score (" +:+ fmt_2f z +:+ ") <= -Threshold (-" +:+ str_float (threshold self)
    +:+ ") [Oversold]".

(** [adf_result.get('is_stationary', False)] read as a truth value. *)
Definition is_stationary (adf : gmap string Py.pyval) : bool :=
  Py.truthy (Py.dict_get adf "is_stationary" (Py.PyBool false)).

(** [AlertEngine.evaluate]: the new engine (only [current_state] may have
    changed) and the returned alert, [None] when the method returns [None]. *)
Definition evaluate (self : engine) (z_score rolling_correlation : option float)
    (adf_result : option (gmap string Py.pyval)) (timestamp : string)
    : engine * option alert :=
  match z_score, rolling_correlation, adf_result with
  | Some z, Some corr, Some adf =>
      match current_state self with
      | Some _ =>
          if (abs z <? reset_threshold self)%float
          then (set_state self None, None)
          else (self, None)
      | None =>
          if (corr <? min_correlation self)%float then (self, None)
          else if negb (is_stationary adf) then (self, None)
          else if (threshold self <=? z)%float then
            (set_state self (Some SHORT),
             Some (mk_alert timestamp (signal_str SHORT) z corr (short_reason self z)))
          else if (z <=? - threshold self)%float then
            (set_state self (Some LONG),
             Some (mk_alert timestamp (signal_str LONG) z corr (long_reason self z)))
          else (self, None)
      end
  | _, _, _ => (self, None)
  end.

(** One call of [evaluate] as the caller sees it. *)
Record call : Type := mk_call {
  c_z : option float;
  c_corr : option float;
  c_adf : option (gmap string Py.pyval);
  c_ts : string
}.

Definition eval_call (self : engine) (c : call) : engine * option alert :=
  evaluate self (c_z c) (c_corr c) (c_adf c) (c_ts c).

(** A run of successive calls on one engine: for each call the state
    before it, the state after it and what it returned. *)
Record step : Type := mk_step {
  s_before : engine;
  s_call : call;
  s_after : engine;
  s_out : option alert
}.

Fixpoint run (self : engine) (cs : list call) : list step :=
  match cs with
  | [] => []
  | c :: cs' =>
      let '(self', out) := eval_call self c in
      mk_step self c self' out :: run self' cs'
  end.

(** A call that takes the reset branch: every input is given, the engine
    holds a signal and [abs(z_score) < reset_threshold]. *)
Definition is_reset (self : engine) (c : call) : bool :=
  match c_z c, c_corr c, c_adf c, current_state self with
  | Some z, Some _, Some _, Some _ => (abs z <? reset_threshold self)%float
  | _, _, _, _ => false
  end.

End Evaluate.

(** The inputs of [tests/test_alerts.py]: a stationary result, and the
    z-scores [2.5, 2.6, 0.1, -2.5] at correlation [0.9]. *)
Definition adf_stationary : gmap string Py.pyval :=
  {[ "is_stationary" := Py.PyBool true ]}.

Definition test_call (z corr : float) : call :=
  mk_call (Some z) (Some corr) (Some adf_stationary) "2025-01-01T10:00:00".

Definition test_calls : list call :=
  [ test_call 2.5 0.9; test_call 2.6 0.9; test_call 0.1 0.9; test_call (-2.5) 0.9 ]%float.

(** A rendering of floats for closed examples; the results below do not
    depend on the text of [reason]. *)
Definition no_text (f : float) : string := "".

End AlertEngine.

(** ** numpy and pandas reductions used by the analytics

    [np.mean] and [np.std] reduce an array by additions; pandas' rolling
    mean and standard deviation are those statistics of the trailing
    window, undefined (NaN) until the window is full. The definitions
    below evaluate the formulas as they are written. The library routines
    reach the same quantities another way: numpy adds eight values or
    more in unrolled partial sums, and pandas updates running sums as the
    window slides and returns a deviation of exactly zero over a run of
    equal values. Their results can therefore differ from the ones here
    in the last digits, and for pandas, on a window of equal values, in
    being NaN where the formula gives a number. What is proved of
    [compute_zscore] for every series (the NaN warm-up, the length of the
    result, the absence of infinities) does not depend on the values of
    the rolling statistics, and the values computed on given inputs are on
    windows of fewer than eight values whose sums are exact. *)

Module Np.

Definition sum (l : list float) : float :=
  match l with
  | [] => 0%float
  | a :: l' => foldl PrimFloat.add a l'
  end.

Definition mean (l : list float) : float :=
  (sum l / Py.float_of_nat (length l))%float.

(** [np.var(l, ddof)]: squared deviations from the mean over [n - ddof]. *)
Definition var (ddof : nat) (l : list float) : float :=
  let m := mean l in
  (sum (map (fun x => (x - m) * (x - m)) l)
     / Py.float_of_nat (length l - ddof))%float.

(** [np.std(l)] is [std 0 l]: the population standard deviation. *)
Definition std (ddof : nat) (l : list float) : float := sqrt (var ddof l).

(** [np.isfinite(l).all()]. *)
Definition all_finite (l : list float) : bool := forallb is_finite l.

End Np.

Module Pd.

(** [s.rolling(window).stat()]: position [i] holds the statistic of the
    [window] values ending at [i], NaN while fewer than [window] values
    are available. *)
Definition rolling (window : nat) (stat : list float -> float) (s : list float)
    : list float :=
  imap (fun i _ =>
          if (window <=? i + 1)%nat
          then stat (take window (drop (i + 1 - window) s))
          else nan) s.

(** [z.replace([np.inf, -np.inf], np.nan)]. *)
Definition replace_inf (z : float) : float :=
  if ((z =? infinity) || (z =? neg_infinity))%float then nan else z.

End Pd.

(** ** analytics/zscore.py, spread.py, hedge_ratio.py *)

Module Analytics.

(** [compute_zscore(series, window)]. *)
Definition compute_zscore (series : list float) (window : Z)
    : Py.result (list float) :=
  if window <=? 1 then Py.RaiseValueError "Window size must be greater than 1."
  else if (length series =? 0)%nat then Py.Return []
  else
    let w := Z.to_nat window in
    let r_mean := Pd.rolling w Np.mean series in
    let r_std := Pd.rolling w (Np.std 1) series in
    let z_score :=
      zip_with (fun x ms => (x - ms.1) / ms.2)%float series (zip r_mean r_std) in
    Py.Return (map Pd.replace_inf z_score).

(** [compute_spread(x, y, hedge_ratio)]. *)
Definition compute_spread (x y : list float) (hedge_ratio : option float)
    : Py.result (list float) :=
  match hedge_ratio with
  | None => Py.RaiseValueError "Hedge ratio cannot be None."
  | Some h =>
      if negb (length x =? length y)%nat
      then Py.RaiseValueError "Input arrays x and y must have the same length."
      else Py.Return (zip_with (fun xi yi => yi - h * xi)%float x y)
  end.

Section HedgeRatio.

(** [np.polyfit(x, y, 1)]: the fitted [(slope, intercept)], or [None] when
    the routine raises. *)
Variable polyfit : list float -> list float -> option (float * float).

(** [compute_hedge_ratio(x, y)]: a float, [None], or a raised [ValueError]. *)
Definition compute_hedge_ratio (x y : list float) : Py.result (option float) :=
  if negb (length x =? length y)%nat
  then Py.RaiseValueError "Input arrays x and y must have the same length."
  else if (length x <? 2)%nat then Py.Return None
  else if negb (Np.all_finite x) || negb (Np.all_finite y) then Py.Return None
  else
    match polyfit x y with
    | Some (slope, _) => Py.Return (Some slope)
    | None => Py.Return None
    end.

End HedgeRatio.

(** The preconditions the specification gives both operations. *)
Definition preconditions (x y : list float) : bool :=
  (length x =? length y)%nat && (2 <=? length x)%nat
    && Np.all_finite x && Np.all_finite y.

End Analytics.

(** ** ingestion/binance_ws.py *)

Module BinanceWs.

Definition WINDOW_SIZE : nat := 50.

(** [deque(maxlen=n).append(x)]: the oldest element leaves a full deque. *)
Definition deque_append (maxlen : nat) (d : list float) (x : float) : list float :=
  drop (length (d ++ [x]) - maxlen) (d ++ [x]).

(** [CURRENT_CONFIG], read at each use. *)
Record config : Type := mk_config {
  zscore_entry_threshold : float;
  zscore_exit_threshold : float;
  min_correlation : float
}.

Definition default_config : config := mk_config 2.0%float 0.5%float 0.7%float.

(** An element of [history_data]. *)
Record data_point : Type := mk_data_point {
  dp_timestamp : string;
  dp_zscore : float;
  dp_spread : float;
  dp_correlation : option float;
  dp_hedge_ratio : float
}.

(** The dictionary [latest_alert]. *)
Record latest : Type := mk_latest {
  la_timestamp : string;
  la_type : string;
  la_signal : string;
  la_z_score : float;
  la_reason : string
}.

(** The module's buffers and the shared runtime state it writes. *)
Record state : Type := mk_state {
  btc_prices : list float;
  eth_prices : list float;
  spread_history : list float;
  history_data : list data_point;
  latest_alert : latest
}.

(** A received message after [data.get('s')] and
    [float(data.get('p', 0))]; [m_p] is [None] when the conversion raises,
    which the handler catches and logs. *)
Record message : Type := mk_message {
  m_s : option string;
  m_p : option float
}.

Section Live.

Variable fmt_2f : float -> string.
Variable str_float : float -> string.
(** [float(np.corrcoef(a, b)[0, 1])]. *)
Variable corrcoef : list float -> list float -> float.

(** [corr if corr else 'N/A'] inside the reason text. *)
Definition corr_text (corr : option float) : string :=
  match corr with
  | Some c => if (c =? 0)%float then "N/A" else str_float c
  | None => "N/A"
  end.

(** [update_alerts(data)]: the content of [latest_alert] afterwards. *)
Definition update_alerts (cfg : config) (data : data_point) (la : latest) : latest :=
  let z := dp_zscore data in
  let threshold := zscore_entry_threshold cfg in
  let min_corr := min_correlation cfg in
  let corr := dp_correlation data in
  if match corr with Some c => (c <? min_corr)%float | None => false end then la
  else
    let alert_signal :=
      if (threshold <? z)%float then "SHORT"
      else if (z <? - threshold)%float then "LONG"
      else "NONE" in
    if negb (String.eqb alert_signal "NONE") then
      mk_latest (dp_timestamp data) "SIGNAL" alert_signal z
        ("Z-Score (" +:+ fmt_2f z +:+ ") crossed " +:+ alert_signal
           +:+ " threshold (Corr: " +:+ corr_text corr +:+ ")")
    else la.

(** The tail [list(q)[-n:]] of a buffer. *)
Definition tail_n (n : nat) (l : list float) : list float :=
  drop (length l - n) l.

(** The z-score [update_analytics] computes for the latest spread. *)
Definition live_zscore (spread : float) (window : list float) : float :=
  let mean_spread := Np.mean window in
  let std_spread := Np.std 0 window in
  if (1e-6 <? std_spread)%float
  then ((spread - mean_spread) / std_spread)%float
  else 0.0%float.

Definition live_correlation (btc eth : list float) : option float :=
  let min_len := Nat.min (length btc) (length eth) in
  let btc_arr := tail_n min_len btc in
  let eth_arr := tail_n min_len eth in
  if (length btc_arr <? 20)%nat
     || (Np.std 0 btc_arr <? 1e-6)%float
     || (Np.std 0 eth_arr <? 1e-6)%float
  then None
  else Some (corrcoef btc_arr eth_arr).

(** [update_analytics(timestamp)], called with both price buffers
    non-empty: [process_message], its only caller, calls it with two
    prices or more in each. On an empty buffer the source raises
    [IndexError] at its first lines; the default of [List.last] stands for
    a value that is never read. *)
Definition update_analytics (cfg : config) (timestamp : string) (st : state) : state :=
  let current_btc := List.last (btc_prices st) 0%float in
  let current_eth := List.last (eth_prices st) 0%float in
  let HEDGE_RATIO := 25.0%float in
  let spread := (current_btc - HEDGE_RATIO * current_eth)%float in
  let spread_history' := deque_append WINDOW_SIZE (spread_history st) spread in
  if (length spread_history' <? 5)%nat then
    mk_state (btc_prices st) (eth_prices st) spread_history'
      (history_data st) (latest_alert st)
  else
    let zscore := live_zscore spread spread_history' in
    let correlation := live_correlation (btc_prices st) (eth_prices st) in
    let new_data_point :=
      mk_data_point timestamp zscore spread correlation HEDGE_RATIO in
    let appended := history_data st ++ [new_data_point] in
    let history_data' :=
      if (WINDOW_SIZE <? length appended)%nat then drop 1 appended else appended in
    mk_state (btc_prices st) (eth_prices st) spread_history'
      history_data' (update_alerts cfg new_data_point (latest_alert st)).

(** [process_message(data)]; [timestamp_str] is the ingestion time read
    from the clock. *)
Definition process_message (cfg : config) (timestamp_str : string)
    (data : message) (st : state) : state :=
  match m_p data with
  | None => st
  | Some price =>
      let updated :=
        match m_s data with
        | Some "BTCUSDT" =>
            Some (mk_state (deque_append WINDOW_SIZE (btc_prices st) price)
                    (eth_prices st) (spread_history st)
                    (history_data st) (latest_alert st))
        | Some "ETHUSDT" =>
            Some (mk_state (btc_prices st)
                    (deque_append WINDOW_SIZE (eth_prices st) price)
                    (spread_history st) (history_data st) (latest_alert st))
        | _ => None
        end in
      match updated with
      | None => st
      | Some st' =>
          if (1 <? length (btc_prices st'))%nat && (1 <? length (eth_prices st'))%nat
          then update_analytics cfg timestamp_str st'
          else st'
      end
  end.

(** The messages of a session, each with its ingestion time. *)
Definition process_all (cfg : config) (msgs : list (string * message)) (st : state)
    : state :=
  foldl (fun st tm => process_message cfg tm.1 tm.2 st) st msgs.

End Live.

(** The state at start-up: empty buffers; [history_data] and
    [latest_alert] hold whatever the API module put there. *)
Definition initial_state (h : list data_point) (la : latest) : state :=
  mk_state [] [] [] h la.

Definition mock_alert : latest :=
  mk_latest "" "SIGNAL" "SHORT" 2.5%float "Z-Score crossed upper threshold".

Definition btc (p : float) : string * message :=
  ("t", mk_message (Some "BTCUSDT") (Some p)).
Definition eth (p : float) : string * message :=
  ("t", mk_message (Some "ETHUSDT") (Some p)).

(** Sessions from start-up. The spread is [btc - 25 * eth]: [0] at prices
    [100] and [4], [5] at [105] and [4].
    - [spike_at_5]: spreads [0, 0, 0, 0, 5];
    - [flat_5]: spreads [0, 0, 0, 0, 0];
    - [spike_at_6]: spreads [0, 0, 0, 0, 0, 5], the last at time [t1];
    - [spike_twice]: spreads [0, 0, 0, 0, 0, 5, 20], the last at time [t2];
    - [huge_5]: five spreads [1e308], whose sum overflows. *)
Definition spike_at_5 : list (string * message) :=
  [ btc 100; btc 100; eth 4; eth 4; eth 4; eth 4; eth 4; btc 105 ]%float.
Definition flat_5 : list (string * message) :=
  [ btc 100; btc 100; eth 4; eth 4; eth 4; eth 4; eth 4; eth 4 ]%float.
Definition spike_at_6 : list (string * message) :=
  flat_5 ++ [ ("t1", (btc 105%float).2) ].
Definition spike_twice : list (string * message) :=
  spike_at_6 ++ [ ("t2", (btc 120%float).2) ].
Definition huge_5 : list (string * message) :=
  [ btc 1e308; btc 1e308; eth 0; eth 0; eth 0; eth 0; eth 0; eth 0 ]%float.

(** The buffers when the fifth spread of [flat_5] is about to be pushed. *)
Definition flat_state : state :=
  mk_state [100; 100]%float [4; 4; 4; 4; 4; 4]%float [0; 0; 0; 0]%float
    [] mock_alert.

End BinanceWs.

(** ** sampling/sampler.py *)

Module Sampler.

(** A [datetime] is its number of microseconds since the epoch, the
    resolution of the type; [timedelta(seconds=n)] is [seconds n]. *)
Definition seconds (n : Z) : Z := n * 1000000.

(** An OHLCV bar, the dictionary [_create_bar] builds. *)
Record bar : Type := mk_bar {
  symbol : string;
  start_time : Z;
  end_time : Z;
  open : float;
  high : float;
  low : float;
  close : float;
  volume : float;
  count : Z
}.

(** A normalized tick, with its timestamp already parsed. *)
Record tick : Type := mk_tick {
  t_timestamp : Z;
  t_symbol : string;
  t_price : float;
  t_quantity : float
}.

Definition timeframes : list Z := [1; 60; 300].

(** [active_bars]: keys [(symbol, timeframe_sec)], in insertion order. *)
Definition key : Type := string * Z.
Definition bars : Type := list (key * bar).

Fixpoint dict_lookup (k : key) (d : bars) : option bar :=
  match d with
  | [] => None
  | (k', b) :: d' => if decide (k = k') then Some b else dict_lookup k d'
  end.

(** [d[k] = b]: an existing key keeps its place, a new one goes last. *)
Fixpoint dict_set (k : key) (b : bar) (d : bars) : bars :=
  match d with
  | [] => [(k, b)]
  | (k', b') :: d' =>
      if decide (k = k') then (k, b) :: d' else (k', b') :: dict_set k b d'
  end.

(** [_get_period_start]: the timestamp floored to a multiple of the
    period. The source floors the double [timestamp.timestamp()], the
    timestamp in seconds rounded to the nearest double. From the epoch to
    [2^34] seconds after it (the year 2514) doubles are less than two
    microseconds apart, the double lies in the same second as the
    timestamp, and the source computes this integer floor. Beyond that
    range a timestamp ending in [.999999] rounds up to the next second and
    the source may return the following period. *)
Definition _get_period_start (timestamp period_seconds : Z) : Z :=
  (timestamp / seconds period_seconds) * seconds period_seconds.

Definition _create_bar (symbol : string) (start_time period_seconds : Z)
    (price qty : float) : bar :=
  mk_bar symbol start_time (start_time + seconds period_seconds)
    price price price price qty 1.

Definition _update_bar (b : bar) (price qty : float) : bar :=
  mk_bar (symbol b) (start_time b) (end_time b) (open b)
    (Py.max (high b) price) (Py.min (low b) price) price
    (volume b + qty)%float (count b + 1).

(** One call of [_finalize_bar]: the bar it was given, and whether it was
    written to the log or discarded by the first test. *)
Record finalized : Type := mk_finalized {
  f_timeframe : Z;
  f_bar : bar;
  f_logged : bool
}.

Definition _finalize_bar (timeframe_sec : Z) (b : bar) : finalized :=
  mk_finalized timeframe_sec b
    (negb ((volume b <=? 0)%float || (close b <=? 0)%float)).

(** [_check_buffer_closures], with the clock value it reads: the bars
    that stay, and the bars finalized, in the order of the dictionary. *)
Definition expired (now : Z) (kb : key * bar) : bool := end_time kb.2 <? now.

Definition _check_buffer_closures (now : Z) (active : bars) : bars * list finalized :=
  (List.filter (fun kb => negb (expired now kb)) active,
   map (fun kb => _finalize_bar kb.1.2 kb.2) (List.filter (expired now) active)).

(** A tick is late for a timeframe when its period has already ended. *)
Definition late (now : Z) (t : tick) (tf : Z) : bool :=
  _get_period_start (t_timestamp t) tf + seconds tf <? now.

(** The body of the loop over [self.timeframes]. *)
Definition process_timeframe (now : Z) (t : tick)
    (acc : bars * list finalized) (tf : Z) : bars * list finalized :=
  let k := (t_symbol t, tf) in
  let period_start := _get_period_start (t_timestamp t) tf in
  if late now t tf then acc
  else
    match dict_lookup k acc.1 with
    | Some current_bar =>
        if period_start =? start_time current_bar
        then (dict_set k (_update_bar current_bar (t_price t) (t_quantity t)) acc.1,
              acc.2)
        else (dict_set k (_create_bar (t_symbol t) period_start tf
                            (t_price t) (t_quantity t)) acc.1,
              acc.2 ++ [_finalize_bar tf current_bar])
    | None =>
        (dict_set k (_create_bar (t_symbol t) period_start tf
                       (t_price t) (t_quantity t)) acc.1,
         acc.2)
    end.

(** One call of [process_tick]: the two readings of the clock and the
    tick, [None] for an empty one. *)
Record call : Type := mk_call {
  c_now_sweep : Z;
  c_now : Z;
  c_tick : option tick
}.

(** [process_tick]: the active bars afterwards and the bars finalized by
    the call, in order. *)
Definition process_tick (c : call) (active : bars) : bars * list finalized :=
  let swept := _check_buffer_closures (c_now_sweep c) active in
  match c_tick c with
  | None => swept
  | Some t => foldl (process_timeframe (c_now c) t) swept timeframes
  end.

(** A session of calls on one sampler; the finalized bars accumulate. *)
Definition run_from (cs : list call) (st : bars * list finalized)
    : bars * list finalized :=
  foldl (fun st c => let r := process_tick c st.1 in (r.1, st.2 ++ r.2)) st cs.

Definition run (cs : list call) : bars * list finalized := run_from cs ([], []).









(** Every bar is filed under its own symbol. *)
Definition own_symbol (kb : key * bar) : Prop := symbol kb.2 = kb.1.1.

(** The ticks of a key that a session took in: not late for the
    timeframe when they were processed. *)
Definition taken (k : key) (c : call) : bool :=
  match c_tick c with
  | Some t => bool_decide (t_symbol t = k.1) && negb (late (c_now c) t k.2)
  | None => false
  end.


(** The shape of a bar that the specification states. *)
Definition bar_ok (tf : Z) (b : bar) : Prop :=
  start_time b mod seconds tf = 0 /\
  (Py.max (open b) (close b) <=? high b)%float = true /\
  (low b <=? Py.min (open b) (close b))%float = true.

(** The same shape spelled out on the four prices, none of them NaN. *)
Definition bar_inv (tf : Z) (b : bar) : Prop :=
  start_time b mod seconds tf = 0 /\
  (is_nan (open b) = false /\ is_nan (high b) = false /\
   is_nan (low b) = false /\ is_nan (close b) = false) /\
  (open b <=? high b)%float = true /\ (close b <=? high b)%float = true /\
  (low b <=? open b)%float = true /\ (low b <=? close b)%float = true.

Definition real_prices (cs : list call) : Prop :=
  forall c t, c ∈ cs -> c_tick c = Some t -> is_nan (t_price t) = false.


(** Three ticks in the first minute, then a sweep much later. *)
Definition three_tick_session : list call :=
  [ mk_call 600000 600000 (Some (mk_tick 500000 "BTCUSDT" 100 1));
    mk_call 700000 700000 (Some (mk_tick 650000 "BTCUSDT" 101 2));
    mk_call 1600000 1600000 (Some (mk_tick 1500000 "BTCUSDT" 99 0.5));
    mk_call 400000000 400000000 None ].

End Sampler.

(** ** Counting over a run of the alert engine *)

Module AlertRuns.

Definition is_alert (s : AlertEngine.step) : bool :=
  match AlertEngine.s_out s with Some _ => true | None => false end.

Definition is_reset_step (s : AlertEngine.step) : bool :=
  AlertEngine.is_reset (AlertEngine.s_before s) (AlertEngine.s_call s).

Definition count_alerts (steps : list AlertEngine.step) : nat :=
  length (List.filter is_alert steps).

Definition count_resets (steps : list AlertEngine.step) : nat :=
  length (List.filter is_reset_step steps).

(** One alert may still come from an engine that holds no signal. *)
Definition slack (e : AlertEngine.engine) : nat :=
  match AlertEngine.current_state e with Some _ => 0 | None => 1 end.

Definition same_parameters (e e' : AlertEngine.engine) : Prop :=
  AlertEngine.threshold e' = AlertEngine.threshold e /\
  AlertEngine.reset_threshold e' = AlertEngine.reset_threshold e /\
  AlertEngine.min_correlation e' = AlertEngine.min_correlation e.

End AlertRuns.

(** ** analytics/adf_test.py *)

Module AdfTest.

(** The result dictionary of [run_adf_test]. *)
Definition result_dict (adf_statistic p_value : float) (is_stationary : bool)
    : gmap string Py.pyval :=
  <[ "adf_statistic" := Py.PyFloat adf_statistic ]>
    (<[ "p_value" := Py.PyFloat p_value ]>
       (<[ "is_stationary" := Py.PyBool is_stationary ]> ∅)).

(** The result returned for a short series and after a failure of the
    test. *)
Definition neutral : gmap string Py.pyval := result_dict nan nan false.

(** [pd.Series(series).dropna()] followed by [s[np.isfinite(s)]]. *)
Definition clean (series : list float) : list float :=
  List.filter is_finite (List.filter (fun x => negb (is_nan x)) series).

(** What a call of [run_adf_test] does: it returns a dictionary, or its
    cleaning lines raise [TypeError]. *)
Inductive outcome : Type :=
  | Returns (d : gmap string Py.pyval)
  | RaisesTypeError.

Section RunAdfTest.

(** [adfuller(s, autolag='AIC')]: the statistic and the p-value, the first
    two components of its result, or [None] when it raises. *)
Variable adfuller : list float -> option (float * float).

(** The function from its length test on, for a series that the
    cleaning lines accept. *)
Definition tested (series : list float) : gmap string Py.pyval :=
  let s := clean series in
  if (length s <? 10)%nat then neutral
  else
    match adfuller s with
    | Some (adf_stat, p_val) => result_dict adf_stat p_val (p_val <? 0.05)%float
    | None => neutral
    end.

(** [run_adf_test(series)] on a list of floats. An empty list makes a
    Series of dtype object, on which [np.isfinite] raises [TypeError]:
    that line comes before the length test and stands outside the [try].
    A list that is not empty makes a Series of floats, which the cleaning
    lines accept even when they leave nothing of it. *)
Definition run_adf_test (series : list float) : outcome :=
  match series with
  | [] => RaisesTypeError
  | _ :: _ => Returns (tested series)
  end.

End RunAdfTest.

(** A series of twelve values, two of them not finite. *)
Definition noisy_series : list float :=
  [1; 2; nan; 3; 4; 5; infinity; 6; 7; 8; 9; 10]%float.

End AdfTest.

(** ** api/routes.py: configuration and the statistics table *)

Module Routes.

(** The outcome of an endpoint: its response or a raised
    [HTTPException]. *)
Inductive http (A : Type) : Type :=
  | Ok (a : A)
  | HTTPException (status_code : Z) (detail : string).
Arguments Ok {A} a.
Arguments HTTPException {A} status_code detail.

(** [update_config(config)], given the current value of the global
    [CURRENT_CONFIG]: the response and the global afterwards. *)
Definition update_config (config current : BinanceWs.config)
    : http BinanceWs.config * BinanceWs.config :=
  if (BinanceWs.zscore_entry_threshold config
        <=? BinanceWs.zscore_exit_threshold config)%float
  then (HTTPException 400 "Entry threshold must be greater than exit threshold.",
        current)
  else if negb ((0 <=? BinanceWs.min_correlation config)%float
                && (BinanceWs.min_correlation config <=? 1)%float)
  then (HTTPException 400 "Correlation must be between 0 and 1.", current)
  else (Ok config, config).

(** A row of [get_analytics_stats]. *)
Record stats_row : Type := mk_stats_row {
  r_timestamp : string;
  r_zscore : float;
  r_spread : float;
  r_correlation : option float;
  r_is_stationary : bool;
  r_alert : string
}.

Definition stats_row_of (cfg : BinanceWs.config) (point : BinanceWs.data_point)
    : stats_row :=
  let z := BinanceWs.dp_zscore point in
  let is_stationary := (abs z <? BinanceWs.zscore_entry_threshold cfg)%float in
  let alert_status :=
    if (BinanceWs.zscore_entry_threshold cfg <? z)%float then "SHORT"
    else if (z <? - BinanceWs.zscore_entry_threshold cfg)%float then "LONG"
    else "NONE" in
  mk_stats_row (BinanceWs.dp_timestamp point) z (BinanceWs.dp_spread point)
    (BinanceWs.dp_correlation point) is_stationary alert_status.

(** [get_analytics_stats()]: the rows, newest first. *)
Definition get_analytics_stats (cfg : BinanceWs.config)
    (history_data : list BinanceWs.data_point) : list stats_row :=
  map (stats_row_of cfg) (rev history_data).

End Routes.

(** ** Sessions of the live path *)

Module LiveRuns.

(** Every buffer within the window size. *)
Definition bounded (st : BinanceWs.state) : Prop :=
  (length (BinanceWs.btc_prices st) <= BinanceWs.WINDOW_SIZE)%nat /\
  (length (BinanceWs.eth_prices st) <= BinanceWs.WINDOW_SIZE)%nat /\
  (length (BinanceWs.spread_history st) <= BinanceWs.WINDOW_SIZE)%nat /\
  (length (BinanceWs.history_data st) <= BinanceWs.WINDOW_SIZE)%nat.

(** A message the handler drops: its price does not convert, or its
    symbol is neither of the pair. *)
Definition dropped (m : BinanceWs.message) : Prop :=
  BinanceWs.m_p m = None \/
  (BinanceWs.m_s m <> Some "BTCUSDT" /\ BinanceWs.m_s m <> Some "ETHUSDT").

(** Nothing published yet, or the spread window has its five values. *)
Definition warmed_or_silent (h : list BinanceWs.data_point) (la : BinanceWs.latest)
    (st : BinanceWs.state) : Prop :=
  (BinanceWs.history_data st = h /\ BinanceWs.latest_alert st = la) \/
  (5 <= length (BinanceWs.spread_history st))%nat.

(** Spreads are only computed from two prices of each symbol. *)
Definition paired (st : BinanceWs.state) : Prop :=
  BinanceWs.spread_history st = [] \/
  ((2 <= length (BinanceWs.btc_prices st))%nat /\
   (2 <= length (BinanceWs.eth_prices st))%nat).

(** A state with thirty prices of one symbol and five of the other. *)
Definition lopsided_state : BinanceWs.state :=
  BinanceWs.mk_state (repeat 100%float 30) (repeat 4%float 5)
    [0; 0; 0; 0]%float [] BinanceWs.mock_alert.

End LiveRuns.

(** ** Shapes of the sampler's bars *)

Module SamplerRuns.

(** A bar spans one period of its timeframe, counts at least one trade
    and is filed under its own symbol. *)
Definition structured (kb : Sampler.key * Sampler.bar) : Prop :=
  Sampler.end_time kb.2 = Sampler.start_time kb.2 + Sampler.seconds kb.1.2 /\
  1 <= Sampler.count kb.2 /\
  Sampler.symbol kb.2 = kb.1.1.

Definition structured_finalized (f : Sampler.finalized) : Prop :=
  structured ((Sampler.symbol (Sampler.f_bar f), Sampler.f_timeframe f),
              Sampler.f_bar f).

(** The timestamps on which [_get_period_start] is the source's
    computation exactly: from the epoch to [2^34] seconds after it. *)
Definition float_exact (ts : Z) : Prop := 0 <= ts < 2 ^ 34 * 1000000.

(** A bar that had not ended at the clock reading [now]. *)
Definition not_ended (now : Z) (kb : Sampler.key * Sampler.bar) : Prop :=
  now <= Sampler.end_time kb.2.

(** A sampler holding a one-second bar that ended long ago. *)
Definition stale_bars : Sampler.bars :=
  [ (("ETHUSDT", 1), Sampler._create_bar "ETHUSDT" 0 1 4 1) ].

Definition late_call : Sampler.call :=
  Sampler.mk_call 90000000 90000000
    (Some (Sampler.mk_tick 61500000 "BTCUSDT" 100 1)).

End SamplerRuns.

(** * Properties *)

(** ** Floats *)

Module PyFacts.

Lemma is_nan_SF (x : float) :
  is_nan x = match Prim2SF x with S754_nan => true | _ => false end.
Proof.
  unfold is_nan. rewrite FloatAxioms.eqb_spec. unfold SFeqb.
  destruct (Prim2SF x) as [s | s | | s m e]; simpl;
    rewrite ?Z.compare_refl, ?Pos.compare_cont_refl; try destruct s; reflexivity.
Qed.

Lemma SFltb_key (x y : spec_float) :
  x <> S754_nan -> y <> S754_nan ->
  SFltb x y = true <-> Py.klt (Py.key x) (Py.key y).
Proof.
  intros Hx Hy. unfold SFltb, Py.klt.
  destruct x as [sx | sx | | sx mx ex], y as [sy | sy | | sy my ey];
    try congruence; simpl;
    repeat match goal with s : bool |- _ => destruct s end; simpl;
    try (split; [ intros H; try discriminate H; lia | intros H; try reflexivity; lia ]).
  all: change (Pos.compare_cont Eq ?a ?b) with (Pos.compare a b).
  all: destruct (Z.compare_spec ex ey) as [He | He | He];
    destruct (Pos.compare_spec mx my) as [Hm | Hm | Hm]; simpl;
    (split; [ intros Hk; try discriminate Hk; lia | intros Hk; try reflexivity; lia ]).
Qed.

Lemma SFleb_key (x y : spec_float) :
  x <> S754_nan -> y <> S754_nan ->
  SFleb x y = true <-> Py.kle (Py.key x) (Py.key y).
Proof.
  intros Hx Hy. unfold SFleb, Py.kle.
  destruct x as [sx | sx | | sx mx ex], y as [sy | sy | | sy my ey];
    try congruence; simpl;
    repeat match goal with s : bool |- _ => destruct s end; simpl;
    try (split; [ intros H; try discriminate H; lia | intros H; try reflexivity; lia ]).
  all: change (Pos.compare_cont Eq ?a ?b) with (Pos.compare a b).
  all: destruct (Z.compare_spec ex ey) as [He | He | He];
    destruct (Pos.compare_spec mx my) as [Hm | Hm | Hm]; simpl;
    (split; [ intros Hk; try discriminate Hk; lia | intros Hk; try reflexivity; lia ]).
Qed.

Lemma not_nan_SF (x : float) : is_nan x = false -> Prim2SF x <> S754_nan.
Proof. rewrite is_nan_SF. intros H E. rewrite E in H. discriminate H. Qed.

Lemma ltb_key (x y : float) :
  is_nan x = false -> is_nan y = false ->
  (x <? y)%float = true <-> Py.klt (Py.fkey x) (Py.fkey y).
Proof.
  intros Hx Hy. rewrite FloatAxioms.ltb_spec.
  apply SFltb_key; apply not_nan_SF; assumption.
Qed.

Lemma leb_key (x y : float) :
  is_nan x = false -> is_nan y = false ->
  (x <=? y)%float = true <-> Py.kle (Py.fkey x) (Py.fkey y).
Proof.
  intros Hx Hy. rewrite FloatAxioms.leb_spec.
  apply SFleb_key; apply not_nan_SF; assumption.
Qed.

(** A comparison that holds has no NaN operand. *)
Lemma ltb_true_not_nan (x y : float) :
  (x <? y)%float = true -> is_nan x = false /\ is_nan y = false.
Proof.
  rewrite FloatAxioms.ltb_spec, !is_nan_SF. unfold SFltb.
  destruct (Prim2SF x), (Prim2SF y); simpl; intros H; try discriminate H; auto.
Qed.

Lemma leb_true_not_nan (x y : float) :
  (x <=? y)%float = true -> is_nan x = false /\ is_nan y = false.
Proof.
  rewrite FloatAxioms.leb_spec, !is_nan_SF. unfold SFleb.
  destruct (Prim2SF x), (Prim2SF y); simpl; intros H; try discriminate H; auto.
Qed.

Lemma is_nan_opp (x : float) : is_nan (- x) = is_nan x.
Proof.
  rewrite !is_nan_SF, opp_spec. destruct (Prim2SF x); reflexivity.
Qed.

Lemma fkey_opp (x : float) :
  Py.fkey (- x) = (- (Py.fkey x).1.1, - (Py.fkey x).1.2, - (Py.fkey x).2).
Proof.
  unfold Py.fkey. rewrite opp_spec.
  destruct (Prim2SF x) as [s | s | | s m e]; try destruct s; simpl;
    rewrite ?Z.opp_involutive; reflexivity.
Qed.


(** On floats that are not NaN, [<=] is the negation of the converse [<]. *)
Lemma ltb_false_leb (x y : float) :
  is_nan x = false -> is_nan y = false ->
  (x <? y)%float = false <-> (y <=? x)%float = true.
Proof.
  intros Hx Hy. rewrite (leb_key y x Hy Hx).
  rewrite <- Bool.not_true_iff_false, (ltb_key x y Hx Hy).
  unfold Py.klt, Py.kle. lia.
Qed.

Lemma leb_refl (x : float) : is_nan x = false -> (x <=? x)%float = true.
Proof. intros Hx. apply leb_key; auto. unfold Py.kle. lia. Qed.

Lemma leb_trans (x y z : float) :
  (x <=? y)%float = true -> (y <=? z)%float = true -> (x <=? z)%float = true.
Proof.
  intros Hxy Hyz.
  destruct (leb_true_not_nan _ _ Hxy) as [Hx Hy].
  destruct (leb_true_not_nan _ _ Hyz) as [_ Hz].
  apply leb_key in Hxy, Hyz; auto. apply leb_key; auto.
  unfold Py.kle in *. lia.
Qed.

Lemma ltb_leb (x y : float) : (x <? y)%float = true -> (x <=? y)%float = true.
Proof.
  intros Hxy. destruct (ltb_true_not_nan _ _ Hxy) as [Hx Hy].
  apply ltb_key in Hxy; auto. apply leb_key; auto.
  unfold Py.klt, Py.kle in *. lia.
Qed.


End PyFacts.

(** ** The alert state machine *)

Section AlertEngineFacts.
Import AlertEngine.

Variable fmt_2f : float -> string.
Variable str_float : float -> string.

Abbreviation evaluate := (AlertEngine.evaluate fmt_2f str_float).
Abbreviation eval_call := (AlertEngine.eval_call fmt_2f str_float).
Abbreviation run := (AlertEngine.run fmt_2f str_float).

(** An alert is returned only from the state [None], and leaves a signal
    in [current_state]. *)
Lemma alert_enters_signal (e e' : engine) (c : call) (a : alert) :
  eval_call e c = (e', Some a) ->
  current_state e = None /\ current_state e' <> None.
Proof.
  unfold AlertEngine.eval_call, AlertEngine.evaluate.
  destruct (c_z c), (c_corr c), (c_adf c); try discriminate.
  destruct (current_state e) eqn:Hst.
  - destruct (abs _ <? _)%float; discriminate.
  - repeat match goal with
           | |- context [if ?b then _ else _] => destruct b
           end; intros H; inversion H; subst; simpl; split; congruence.
Qed.

(** The only way out of a held signal is the reset branch, which is silent. *)
Lemma signal_left_by_reset (e e' : engine) (c : call) (out : option alert) :
  eval_call e c = (e', out) ->
  current_state e <> None -> current_state e' = None ->
  is_reset e c = true /\ out = None.
Proof.
  unfold AlertEngine.eval_call, AlertEngine.evaluate, is_reset.
  destruct (c_z c), (c_corr c), (c_adf c), (current_state e) eqn:Hst;
    intros H Hs Hn; inversion H; subst; try congruence.
  destruct (abs _ <? _)%float; inversion H; subst; auto; congruence.
Qed.

Lemma run_cons (e : engine) (c : call) (cs : list call) :
  run e (c :: cs) =
  mk_step e c (eval_call e c).1 (eval_call e c).2 :: run (eval_call e c).1 cs.
Proof. simpl. destruct (eval_call e c). reflexivity. Qed.

(** From a held signal, a later call can start in [None] only after a
    reset call. *)
Lemma reset_before_none (cs : list call) : forall (e : engine) (j : nat) (sj : step),
  current_state e <> None ->
  run e cs !! j = Some sj ->
  current_state (s_before sj) = None ->
  exists (k : nat) (sk : step),
    (k < j)%nat /\ run e cs !! k = Some sk /\
    is_reset (s_before sk) (s_call sk) = true /\
    current_state (s_after sk) = None /\ s_out sk = None.
Proof.
  induction cs as [| c cs IH]; intros e j sj He Hj Hnone.
  - discriminate Hj.
  - rewrite run_cons in Hj. destruct j as [| j].
    + inversion Hj; subst. simpl in Hnone. contradiction.
    + simpl in Hj.
      destruct (current_state (eval_call e c).1) eqn:Hnext.
      * destruct (IH (eval_call e c).1 j sj) as (k & sk & Hk & Hlk & Hr);
          [ congruence | assumption | assumption | ].
        exists (S k), sk. rewrite run_cons. split; [ lia | ]. split; assumption.
      * destruct (signal_left_by_reset e (eval_call e c).1 c (eval_call e c).2)
          as [Hr Ho]; [ destruct (eval_call e c); reflexivity | assumption | assumption | ].
        eexists 0%nat, _. rewrite run_cons. split; [ lia | ].
        split; [ reflexivity | ]. simpl. auto.
Qed.

(** C1. In every run of [evaluate] calls on one engine, between two calls
    that return an alert there is a call that takes the reset branch
    ([abs(z_score) < reset_threshold] while a signal is held): it puts
    [current_state] back to [None] and itself returns no alert. *)
Theorem alerts_separated_by_reset (cs : list call) :
  forall (e : engine) (i j : nat) (si sj : step),
  run e cs !! i = Some si -> run e cs !! j = Some sj -> (i < j)%nat ->
  s_out si <> None -> s_out sj <> None ->
  exists (k : nat) (sk : step),
    (i < k < j)%nat /\ run e cs !! k = Some sk /\
    is_reset (s_before sk) (s_call sk) = true /\
    current_state (s_after sk) = None /\ s_out sk = None.
Proof.
  induction cs as [| c cs IH]; intros e i j si sj Hi Hj Hij Hoi Hoj.
  - discriminate Hi.
  - destruct j as [| j]; [ lia | ].
    assert (Hbefore : current_state (s_before sj) = None).
    { destruct (s_out sj) as [a |] eqn:Ha; [ | congruence ].
      assert (Hin : sj ∈ run e (c :: cs)) by (eapply list_elem_of_lookup_2; exact Hj).
      clear - Hin Ha. revert e Hin.
      induction (c :: cs) as [| c' cs' IH']; intros e Hin.
      - inversion Hin.
      - rewrite run_cons in Hin. apply elem_of_cons in Hin as [-> | Hin].
        + simpl in *. destruct (eval_call e c') as [e1 o1] eqn:Hc. simpl in *.
          subst o1. exact (proj1 (alert_enters_signal e e1 c' a Hc)).
        + eapply IH'. exact Hin. }
    rewrite run_cons in Hi, Hj. simpl in Hj. destruct i as [| i].
    + inversion Hi; subst si. simpl in Hoi.
      destruct (eval_call e c) as [e1 o1] eqn:Hc. simpl in *.
      destruct o1 as [a |]; [ | congruence ].
      destruct (alert_enters_signal e e1 c a Hc) as [_ Hheld].
      destruct (reset_before_none cs e1 j sj Hheld Hj Hbefore)
        as (k & sk & Hk & Hlk & Hr).
      exists (S k), sk. simpl. rewrite ?Hc. simpl. split; [ lia | ]. split; assumption.
    + simpl in Hi.
      destruct (IH (eval_call e c).1 i j si sj Hi Hj) as (k & sk & Hk & Hlk & Hr);
        [ lia | assumption | assumption | ].
      exists (S k), sk. rewrite run_cons. simpl. split; [ lia | ]. split; assumption.
Qed.



Lemma truthy_false_falsy (v : Py.pyval) :
  Py.truthy v = false <-> PyTruth.falsy v.
Proof.
  unfold PyTruth.falsy. destruct v as [| b | n | f | s]; simpl.
  - split; [ auto | reflexivity ].
  - destruct b; split; try discriminate; auto.
    intros [H | [H | [H | [(f & H & _) | H]]]]; discriminate H.
  - rewrite Bool.negb_false_iff, Z.eqb_eq. split.
    + intros ->. auto.
    + intros [H | [H | [H | [(f & H & _) | H]]]]; inversion H. reflexivity.
  - rewrite Bool.negb_false_iff. split.
    + intros Hf. right. right. right. left. exists f. auto.
    + intros [H | [H | [H | [(f' & H & Hf) | H]]]]; inversion H. subst. exact Hf.
  - rewrite Bool.negb_false_iff, String.eqb_eq. split.
    + intros ->. repeat right. reflexivity.
    + intros [H | [H | [H | [(f & H & _) | H]]]]; inversion H. reflexivity.
Qed.

(** C10, amended. The engine reads the stationarity dictionary by
    Python's truth test: it is read as non-stationary exactly when the
    key ['is_stationary'] is missing or maps to a value that is false by
    that test ([False], [None], [0], [0.0], the empty string). Then, from
    the state [None] with z-score and correlation given, there is no
    transition and nothing is returned, for every z-score and
    correlation. *)
Theorem evaluate_falsy_stationarity (e : engine) (z corr : float)
    (adf : gmap string Py.pyval) (ts : string) :
  (is_stationary adf = false <-> PyTruth.not_stationary_entry adf) /\
  (current_state e = None -> PyTruth.not_stationary_entry adf ->
   evaluate e (Some z) (Some corr) (Some adf) ts = (e, None)).
Proof.
  assert (Hiff : is_stationary adf = false <-> PyTruth.not_stationary_entry adf).
  { unfold is_stationary, Py.dict_get, PyTruth.not_stationary_entry.
    destruct (adf !! "is_stationary") as [v |]; simpl.
    - rewrite truthy_false_falsy. split.
      + intros Hv. right. exists v. auto.
      + intros [H | (v' & H & Hv)]; [ discriminate H | ]. inversion H. subst. exact Hv.
    - split; [ auto | reflexivity ]. }
  split; [ exact Hiff | ].
  intros Hst Hentry. apply Hiff in Hentry.
  unfold AlertEngine.evaluate. rewrite Hst, Hentry.
  destruct (corr <? min_correlation e)%float; reflexivity.
Qed.

End AlertEngineFacts.

(** The run of [tests/test_alerts.py]: SHORT, nothing, a silent reset,
    then LONG. *)
Example test_alerts_run :
  map (fun s => (AlertEngine.current_state (AlertEngine.s_after s),
                 option_map AlertEngine.alert_signal (AlertEngine.s_out s)))
      (AlertEngine.run AlertEngine.no_text AlertEngine.no_text
         AlertEngine.default_engine AlertEngine.test_calls)
  = [ (Some AlertEngine.SHORT, Some "SHORT"); (Some AlertEngine.SHORT, None);
      (None, None); (Some AlertEngine.LONG, Some "LONG") ].
Proof. vm_compute. reflexivity. Qed.

(** On the test run the two alerts are the calls 0 and 3; the reset in
    between is call 2. *)
Lemma alerts_separated_by_reset_witness :
  exists (k : nat) (sk : AlertEngine.step),
    (0 < k < 3)%nat /\
    AlertEngine.run AlertEngine.no_text AlertEngine.no_text
      AlertEngine.default_engine AlertEngine.test_calls !! k = Some sk /\
    AlertEngine.is_reset (AlertEngine.s_before sk) (AlertEngine.s_call sk) = true /\
    AlertEngine.current_state (AlertEngine.s_after sk) = None /\
    AlertEngine.s_out sk = None.
Proof.
  eapply (alerts_separated_by_reset AlertEngine.no_text AlertEngine.no_text
            AlertEngine.test_calls AlertEngine.default_engine 0 3).
  - vm_compute. reflexivity.
  - vm_compute. reflexivity.
  - lia.
  - discriminate.
  - discriminate.
Defined.


(** A NaN is not [None]: a NaN correlation is not below
    [min_correlation], so it passes the correlation filter, while a NaN
    z-score triggers nothing. *)
Example nan_inputs :
  option_map AlertEngine.alert_signal
    (AlertEngine.evaluate AlertEngine.no_text AlertEngine.no_text
       AlertEngine.default_engine (Some 2.5%float) (Some nan)
       (Some AlertEngine.adf_stationary) "2025-01-01T10:00:00").2
    = Some "SHORT" /\
  AlertEngine.evaluate AlertEngine.no_text AlertEngine.no_text
    AlertEngine.default_engine (Some nan) (Some 0.9%float)
    (Some AlertEngine.adf_stationary) "2025-01-01T10:00:00"
    = (AlertEngine.default_engine, None).
Proof. vm_compute. split; reflexivity. Qed.


(** C10 as stated fails: the string ['False'] is something other than
    [True], yet it is true by the truth test, so the engine reads the
    series as stationary and returns a SHORT alert. *)
Lemma truthy_entry_reads_stationary :
  ({[ "is_stationary" := Py.PyStr "False" ]} : gmap string Py.pyval)
    !! "is_stationary" <> Some (Py.PyBool true) /\
  (AlertEngine.current_state
     (AlertEngine.evaluate AlertEngine.no_text AlertEngine.no_text
        AlertEngine.default_engine (Some 2.5%float) (Some 0.9%float)
        (Some {[ "is_stationary" := Py.PyStr "False" ]}) "2025-01-01T10:00:00").1,
   option_map AlertEngine.alert_signal
     (AlertEngine.evaluate AlertEngine.no_text AlertEngine.no_text
        AlertEngine.default_engine (Some 2.5%float) (Some 0.9%float)
        (Some {[ "is_stationary" := Py.PyStr "False" ]}) "2025-01-01T10:00:00").2)
  = (Some AlertEngine.SHORT, Some "SHORT").
Proof. split; vm_compute; [ discriminate | reflexivity ]. Qed.

(** A result dictionary that only carries [p_value]. *)
Lemma evaluate_falsy_stationarity_witness :
  AlertEngine.evaluate AlertEngine.no_text AlertEngine.no_text
    AlertEngine.default_engine (Some 2.5%float) (Some 0.9%float)
    (Some {[ "p_value" := Py.PyFloat nan ]}) "2025-01-01T10:00:00"
  = (AlertEngine.default_engine, None).
Proof.
  apply (evaluate_falsy_stationarity AlertEngine.no_text AlertEngine.no_text).
  - reflexivity.
  - left. vm_compute. reflexivity.
Defined.

(** ** Z-score, spread and hedge ratio *)

Module AnalyticsFacts.

Lemma is_nan_div_nan (x : float) : is_nan (x / nan) = true.
Proof.
  rewrite PyFacts.is_nan_SF, div_spec.
  replace (Prim2SF nan) with S754_nan by (vm_compute; reflexivity).
  unfold SF64div, SFdiv. destruct (Prim2SF x); reflexivity.
Qed.

Lemma replace_inf_nan (x : float) : is_nan x = true -> Pd.replace_inf x = x.
Proof.
  intros Hx. unfold Pd.replace_inf. rewrite !FloatAxioms.eqb_spec.
  rewrite PyFacts.is_nan_SF in Hx. unfold SFeqb.
  destruct (Prim2SF x); try discriminate Hx. reflexivity.
Qed.

Lemma rolling_lookup (w : nat) (stat : list float -> float) (s : list float)
    (i : nat) (x : float) :
  s !! i = Some x ->
  Pd.rolling w stat s !! i =
    Some (if (w <=? i + 1)%nat then stat (take w (drop (i + 1 - w) s)) else nan).
Proof.
  intros Hi. unfold Pd.rolling. rewrite list_lookup_imap, Hi. reflexivity.
Qed.

(** On the batch path the first [window - 1] positions are NaN, whatever
    the values of the series. *)
Lemma compute_zscore_warmup (series : list float) (window : Z) (zs : list float)
    (i : nat) :
  Analytics.compute_zscore series window = Py.Return zs ->
  (Z.of_nat i + 1 < window) -> (i < length series)%nat ->
  exists v, zs !! i = Some v /\ is_nan v = true.
Proof.
  unfold Analytics.compute_zscore. intros Hz Hi Hlen.
  destruct (window <=? 1) eqn:Hw; [ discriminate Hz | ].
  destruct (length series =? 0)%nat eqn:Hl; [ apply Nat.eqb_eq in Hl; lia | ].
  inversion Hz; subst zs; clear Hz.
  destruct (lookup_lt_is_Some_2 series i Hlen) as [x Hx].
  assert (Hnot : (Z.to_nat window <=? i + 1)%nat = false)
    by (apply Nat.leb_gt; lia).
  exists ((x - nan) / nan)%float. split; [ | apply is_nan_div_nan ].
  rewrite list_lookup_fmap, lookup_zip_with, Hx. simpl.
  rewrite lookup_zip_with.
  rewrite (rolling_lookup _ _ _ _ _ Hx), (rolling_lookup _ _ _ _ _ Hx), Hnot.
  simpl. f_equal. apply replace_inf_nan, is_nan_div_nan.
Qed.

(** C7 as stated fails: with series of unequal lengths the hedge ratio
    raises [ValueError] instead of returning an undefined result, and the
    spread of two one-element series is returned as an array. *)
Lemma precondition_failure_not_signalled :
  Analytics.preconditions [1]%float [1; 2]%float = false /\
  Analytics.compute_hedge_ratio (fun _ _ => None) [1]%float [1; 2]%float
    = Py.RaiseValueError "Input arrays x and y must have the same length." /\
  Analytics.preconditions [1]%float [3]%float = false /\
  Analytics.compute_spread [1]%float [3]%float (Some 2%float)
    = Py.Return [1%float].
Proof. repeat split; vm_compute; reflexivity. Qed.

(** C7, amended. With series of unequal lengths both operations raise
    [ValueError]. With series of equal length, [compute_hedge_ratio]
    returns [None] when there are fewer than two points or a value is not
    finite, and [compute_spread] returns the element-wise
    [y - hedge_ratio * x] without any further check. *)
Theorem hedge_ratio_and_spread_on_bad_input
    (polyfit : list float -> list float -> option (float * float))
    (x y : list float) (h : float) :
  (length x <> length y ->
     Analytics.compute_hedge_ratio polyfit x y
       = Py.RaiseValueError "Input arrays x and y must have the same length." /\
     Analytics.compute_spread x y (Some h)
       = Py.RaiseValueError "Input arrays x and y must have the same length.") /\
  (length x = length y ->
     (length x < 2)%nat \/ Np.all_finite x = false \/ Np.all_finite y = false ->
     Analytics.compute_hedge_ratio polyfit x y = Py.Return None) /\
  (length x = length y ->
     Analytics.compute_spread x y (Some h)
       = Py.Return (zip_with (fun xi yi => yi - h * xi)%float x y)).
Proof.
  unfold Analytics.compute_hedge_ratio, Analytics.compute_spread.
  split; [ | split ].
  - intros Hne. apply Nat.eqb_neq in Hne. rewrite Hne. split; reflexivity.
  - intros Heq Hbad. rewrite (proj2 (Nat.eqb_eq _ _) Heq). simpl.
    destruct (length x <? 2)%nat eqn:Hlen; [ reflexivity | ].
    apply Nat.ltb_ge in Hlen.
    destruct Hbad as [Hlt | [Hx | Hy]]; [ lia | rewrite Hx; reflexivity | ].
    rewrite Hy, Bool.orb_true_r. reflexivity.
  - intros Heq. rewrite (proj2 (Nat.eqb_eq _ _) Heq). reflexivity.
Qed.

(** Equal lengths, one value infinite. *)
Lemma hedge_ratio_and_spread_on_bad_input_witness :
  Analytics.compute_hedge_ratio (fun _ _ => None) [1; infinity]%float [2; 3]%float
    = Py.Return None.
Proof.
  apply (hedge_ratio_and_spread_on_bad_input (fun _ _ => None)
           [1; infinity]%float [2; 3]%float 0%float).
  - reflexivity.
  - right. left. reflexivity.
Defined.

End AnalyticsFacts.

(** ** The live update path *)

Section LiveFacts.
Import BinanceWs.

Variable fmt_2f : float -> string.
Variable str_float : float -> string.
Variable corrcoef : list float -> list float -> float.

Abbreviation update_alerts := (BinanceWs.update_alerts fmt_2f str_float).
Abbreviation update_analytics := (BinanceWs.update_analytics fmt_2f str_float corrcoef).
Abbreviation process_all := (BinanceWs.process_all fmt_2f str_float corrcoef).

Lemma length_deque_append (n : nat) (d : list float) (x : float) :
  length (deque_append n d x) = Nat.min (length d + 1) n.
Proof.
  unfold deque_append. rewrite length_drop, length_app. simpl. lia.
Qed.

Lemma spread_history_update_analytics (cfg : config) (ts : string) (st : state) :
  spread_history (update_analytics cfg ts st) =
  deque_append WINDOW_SIZE (spread_history st)
    (List.last (btc_prices st) 0 - 25.0 * List.last (eth_prices st) 0)%float.
Proof.
  unfold BinanceWs.update_analytics.
  destruct (length _ <? 5)%nat; reflexivity.
Qed.

Lemma last_capped (h : list data_point) (x : data_point) :
  last (if (WINDOW_SIZE <? length (h ++ [x]))%nat then drop 1 (h ++ [x]) else h ++ [x])
  = Some x.
Proof.
  destruct (WINDOW_SIZE <? length (h ++ [x]))%nat eqn:Hc; [ | apply last_snoc ].
  apply Nat.ltb_lt in Hc. rewrite length_app in Hc. simpl in Hc.
  destruct h as [| a h]; [ unfold WINDOW_SIZE in Hc; simpl in Hc; lia | ].
  simpl. rewrite drop_0. apply last_snoc.
Qed.

(** What one call of [update_analytics] publishes: nothing while the
    spread window holds fewer than five values, and from the fifth value
    on a data point whose z-score is [live_zscore] of the window. *)
Lemma update_analytics_publishes (cfg : config) (ts : string) (st : state) :
  let st' := update_analytics cfg ts st in
  ((length (spread_history st) < 4)%nat ->
     history_data st' = history_data st /\ latest_alert st' = latest_alert st) /\
  ((4 <= length (spread_history st))%nat ->
     exists dp, last (history_data st') = Some dp /\
       dp_zscore dp = live_zscore (dp_spread dp) (spread_history st')).
Proof.
  cbv zeta. rewrite spread_history_update_analytics.
  unfold BinanceWs.update_analytics.
  set (spread := (List.last (btc_prices st) 0 - 25.0 * List.last (eth_prices st) 0)%float).
  rewrite length_deque_append.
  split; intros Hlen.
  - assert (Hc : (Nat.min (length (spread_history st) + 1) WINDOW_SIZE <? 5)%nat = true)
      by (apply Nat.ltb_lt; unfold WINDOW_SIZE; lia).
    rewrite Hc. split; reflexivity.
  - assert (Hc : (Nat.min (length (spread_history st) + 1) WINDOW_SIZE <? 5)%nat = false)
      by (apply Nat.ltb_ge; unfold WINDOW_SIZE; lia).
    rewrite Hc. eexists. simpl. split; [ apply last_capped | reflexivity ].
Qed.

(** C4. The live path divides by the population standard deviation
    ([np.std], denominator N), not by the sample one: on the window
    [0, 0, 0, 0, 5] it publishes [(5 - 1) / 2 = 2.0], where the N-1
    formula, which [compute_zscore] follows, gives [4 / sqrt 5]. *)
Theorem live_zscore_population_std :
  let st := process_all default_config spike_at_5 (initial_state [] mock_alert) in
  let w := spread_history st in
  w = [0; 0; 0; 0; 5]%float /\
  map dp_zscore (history_data st) = [2.0%float] /\
  ((5 - Np.mean w) / Np.std 0 w = 2.0)%float /\
  ((5 - Np.mean w) / Np.std 1 w = 1.7888543819998317)%float /\
  Analytics.compute_zscore w 5
    = Py.Return [nan; nan; nan; nan; 1.7888543819998317%float].
Proof. vm_compute. repeat split; reflexivity. Qed.

(** C5. When the standard deviation of the spread window is not above
    [1e-6], the live path publishes the z-score [0.0]. *)
Theorem live_zscore_zero_on_flat_window (cfg : config) (ts : string) (st : state) :
  let st' := update_analytics cfg ts st in
  (5 <= length (spread_history st'))%nat ->
  (1e-6 <? Np.std 0 (spread_history st'))%float = false ->
  exists dp, last (history_data st') = Some dp /\ dp_zscore dp = 0.0%float.
Proof.
  cbv zeta. intros Hlen Hstd.
  rewrite spread_history_update_analytics in Hlen.
  rewrite length_deque_append in Hlen.
  destruct (update_analytics_publishes cfg ts st) as [_ Hpub].
  destruct Hpub as (dp & Hlast & Hz); [ unfold WINDOW_SIZE in Hlen; lia | ].
  exists dp. split; [ exact Hlast | ].
  rewrite Hz. unfold live_zscore. rewrite Hstd. reflexivity.
Qed.

End LiveFacts.

(** The flat session reaches [flat_state] before its last push. *)
Example flat_5_reaches_flat_state :
  BinanceWs.process_all AlertEngine.no_text AlertEngine.no_text (fun _ _ => 0%float)
    BinanceWs.default_config BinanceWs.flat_5
    (BinanceWs.initial_state [] BinanceWs.mock_alert)
  = BinanceWs.update_analytics AlertEngine.no_text AlertEngine.no_text
      (fun _ _ => 0%float) BinanceWs.default_config "t" BinanceWs.flat_state.
Proof. vm_compute. reflexivity. Qed.

(** The fifth push of the flat session. *)
Lemma live_zscore_zero_on_flat_window_witness :
  exists dp,
    last (BinanceWs.history_data
            (BinanceWs.update_analytics AlertEngine.no_text AlertEngine.no_text
               (fun _ _ => 0%float) BinanceWs.default_config "t"
               BinanceWs.flat_state)) = Some dp /\
    BinanceWs.dp_zscore dp = 0.0%float.
Proof.
  apply (live_zscore_zero_on_flat_window AlertEngine.no_text AlertEngine.no_text
           (fun _ _ => 0%float) BinanceWs.default_config "t" BinanceWs.flat_state).
  - vm_compute. lia.
  - vm_compute. reflexivity.
Defined.

(** C6. The live path does not wait for a full window: the spread window
    has fifty slots, yet the fifth push into a fresh window already
    publishes a z-score that is a number (nothing was published for the
    first four), where [compute_zscore] with that window size returns NaN
    at every one of these positions. *)
Theorem live_zscore_before_window_full :
  let st := BinanceWs.process_all AlertEngine.no_text AlertEngine.no_text
              (fun _ _ => 0%float) BinanceWs.default_config BinanceWs.spike_at_5
              (BinanceWs.initial_state [] BinanceWs.mock_alert) in
  length (BinanceWs.spread_history st) = 5%nat /\
  (5 <= BinanceWs.WINDOW_SIZE - 1)%nat /\
  map BinanceWs.dp_zscore (BinanceWs.history_data st) = [2.0%float] /\
  is_nan 2.0 = false /\
  Analytics.compute_zscore (BinanceWs.spread_history st)
    (Z.of_nat BinanceWs.WINDOW_SIZE)
  = Py.Return [nan; nan; nan; nan; nan].
Proof. vm_compute. repeat split; try reflexivity. lia. Qed.

(** Sums that overflow make the published z-score NaN, so the live
    z-score is not always a finite number. *)
Example live_zscore_overflow :
  map BinanceWs.dp_zscore
    (BinanceWs.history_data
       (BinanceWs.process_all AlertEngine.no_text AlertEngine.no_text
          (fun _ _ => 0%float) BinanceWs.default_config BinanceWs.huge_5
          (BinanceWs.initial_state [] BinanceWs.mock_alert)))
  = [nan].
Proof. vm_compute. reflexivity. Qed.

(** [update_alerts] is not the state machine of [AlertEngine]: it writes
    an alert while the correlation is [None], and writes the same signal
    again on the next tick without any reset in between. *)
Example live_alerts_without_correlation_and_repeated :
  let run := fun msgs =>
    BinanceWs.process_all AlertEngine.no_text AlertEngine.no_text
      (fun _ _ => 0%float) BinanceWs.default_config msgs
      (BinanceWs.initial_state [] BinanceWs.mock_alert) in
  let first := run BinanceWs.spike_at_6 in
  let second := run BinanceWs.spike_twice in
  option_map BinanceWs.dp_correlation (last (BinanceWs.history_data first))
    = Some None /\
  (BinanceWs.la_timestamp (BinanceWs.latest_alert first),
   BinanceWs.la_signal (BinanceWs.latest_alert first)) = ("t1", "SHORT") /\
  option_map BinanceWs.dp_correlation (last (BinanceWs.history_data second))
    = Some None /\
  (BinanceWs.la_timestamp (BinanceWs.latest_alert second),
   BinanceWs.la_signal (BinanceWs.latest_alert second)) = ("t2", "SHORT").
Proof. vm_compute. repeat split; reflexivity. Qed.

(** ** The bar sampler *)

Module SamplerFacts.
Import Sampler.

(** *** The dictionary of active bars *)

Lemma dict_lookup_elem (k : key) (b : bar) (d : bars) :
  dict_lookup k d = Some b -> (k, b) ∈ d.
Proof.
  induction d as [| [k' b'] d IH]; simpl; [ discriminate | ].
  destruct (decide (k = k')) as [-> | Hne]; intros H.
  - inversion H; subst. apply list_elem_of_here.
  - apply list_elem_of_further, IH, H.
Qed.

Lemma dict_set_Forall (P : key * bar -> Prop) (k : key) (b : bar) (d : bars) :
  P (k, b) -> Forall P d -> Forall P (dict_set k b d).
Proof.
  intros Hb. induction 1 as [| [k' b'] d Hx Hd IH]; simpl.
  - repeat constructor. exact Hb.
  - destruct (decide (k = k')); constructor; auto.
Qed.

Lemma dict_lookup_Forall (P : key * bar -> Prop) (k : key) (b : bar) (d : bars) :
  Forall P d -> dict_lookup k d = Some b -> P (k, b).
Proof.
  intros Hd Hl. rewrite Forall_forall in Hd. apply Hd, dict_lookup_elem, Hl.
Qed.

Lemma filter_Forall {A : Type} (P : A -> Prop) (f : A -> bool) (l : list A) :
  Forall P l -> Forall P (List.filter f l).
Proof.
  induction 1 as [| x l Hx Hl IH]; simpl; [ constructor | ].
  destruct (f x); [ constructor | ]; assumption.
Qed.

(** *** Invariants of a session

    A property [P] of the active bars that creation and update establish,
    and the property [Q] it gives the finalized bars. *)

Section Invariant.

Variable P : key * bar -> Prop.
Variable Q : finalized -> Prop.
Variable T : tick -> Prop.

Hypothesis P_create : forall (t : tick) (tf : Z), T t ->
  P ((t_symbol t, tf),
     _create_bar (t_symbol t) (_get_period_start (t_timestamp t) tf) tf
       (t_price t) (t_quantity t)).
Hypothesis P_update : forall (t : tick) (tf : Z) (b : bar), T t ->
  P ((t_symbol t, tf), b) ->
  P ((t_symbol t, tf), _update_bar b (t_price t) (t_quantity t)).
Hypothesis Q_finalize : forall (k : key) (b : bar),
  P (k, b) -> Q (_finalize_bar k.2 b).

Lemma sweep_inv (now : Z) (d : bars) :
  Forall P d ->
  Forall P (_check_buffer_closures now d).1 /\
  Forall Q (_check_buffer_closures now d).2.
Proof.
  intros Hd. unfold _check_buffer_closures. simpl. split.
  - apply filter_Forall, Hd.
  - apply Forall_fmap. eapply Forall_impl; [ apply filter_Forall, Hd | ].
    intros [k b] Hkb. apply (Q_finalize k b Hkb).
Qed.

Lemma process_timeframe_inv (now : Z) (t : tick) (acc : bars * list finalized)
    (tf : Z) :
  T t -> Forall P acc.1 -> Forall Q acc.2 ->
  Forall P (process_timeframe now t acc tf).1 /\
  Forall Q (process_timeframe now t acc tf).2.
Proof.
  intros Ht Hp Hq. unfold process_timeframe.
  destruct (late now t tf); [ auto | ].
  destruct (dict_lookup (t_symbol t, tf) acc.1) as [cur |] eqn:Hl.
  - pose proof (dict_lookup_Forall P _ _ _ Hp Hl) as Hcur.
    destruct (_ =? start_time cur); simpl; split; auto.
    + apply dict_set_Forall; auto.
    + apply dict_set_Forall; auto.
    + apply Forall_app. split; [ exact Hq | ].
      repeat constructor. apply (Q_finalize (t_symbol t, tf) cur Hcur).
  - simpl. split; [ apply dict_set_Forall; auto | exact Hq ].
Qed.

Lemma timeframes_inv (now : Z) (t : tick) (tfs : list Z) :
  forall acc : bars * list finalized,
  T t -> Forall P acc.1 -> Forall Q acc.2 ->
  Forall P (foldl (process_timeframe now t) acc tfs).1 /\
  Forall Q (foldl (process_timeframe now t) acc tfs).2.
Proof.
  induction tfs as [| tf tfs IH]; intros acc Ht Hp Hq; simpl; [ auto | ].
  destruct (process_timeframe_inv now t acc tf Ht Hp Hq) as [Hp' Hq'].
  apply IH; assumption.
Qed.

Lemma process_tick_inv (c : call) (d : bars) :
  (forall t, c_tick c = Some t -> T t) -> Forall P d ->
  Forall P (process_tick c d).1 /\ Forall Q (process_tick c d).2.
Proof.
  intros Ht Hd. unfold process_tick.
  destruct (sweep_inv (c_now_sweep c) d Hd) as [Hp Hq].
  destruct (c_tick c) as [t |]; [ | auto ].
  apply timeframes_inv; auto.
Qed.

Lemma run_from_inv (cs : list call) : forall st : bars * list finalized,
  (forall c t, c ∈ cs -> c_tick c = Some t -> T t) ->
  Forall P st.1 -> Forall Q st.2 ->
  Forall P (run_from cs st).1 /\ Forall Q (run_from cs st).2.
Proof.
  induction cs as [| c cs IH]; intros st Ht Hp Hq; [ auto | ].
  unfold run_from. simpl. apply IH.
  - intros c' t Hc'. apply Ht. apply list_elem_of_further, Hc'.
  - simpl. apply process_tick_inv; [ | exact Hp ].
    intros t. apply Ht. apply list_elem_of_here.
  - simpl. apply Forall_app. split; [ exact Hq | ].
    apply process_tick_inv; [ | exact Hp ].
    intros t. apply Ht. apply list_elem_of_here.
Qed.

End Invariant.

(** Bars stay filed under their own symbol. *)
Lemma own_symbol_run_from (cs : list call) (st : bars * list finalized) :
  Forall own_symbol st.1 -> Forall own_symbol (run_from cs st).1.
Proof.
  intros Hst.
  refine (proj1 (run_from_inv own_symbol (fun _ => True) (fun _ => True)
                   _ _ _ cs st _ Hst _)).
  - intros t tf _. reflexivity.
  - intros t tf b _ Hb. exact Hb.
  - intros k b _. exact I.
  - intros c t _ _. exact I.
  - apply Forall_forall. intros; exact I.
Qed.



(** *** Trade counts *)











Lemma run_from_cons (c : call) (cs : list call) (st : bars * list finalized) :
  run_from (c :: cs) st =
  run_from cs ((process_tick c st.1).1, st.2 ++ (process_tick c st.1).2).
Proof. reflexivity. Qed.





(** *** The shape of bars *)

Lemma bar_inv_ok (tf : Z) (b : bar) : bar_inv tf b -> bar_ok tf b.
Proof.
  intros (Hstart & _ & Hoh & Hch & Hlo & Hlc). unfold bar_ok, Py.max, Py.min.
  split; [ exact Hstart | ].
  split; [ destruct (open b <? close b)%float | destruct (close b <? open b)%float ];
    assumption.
Qed.

Lemma bar_inv_create (s : string) (ts tf : Z) (price qty : float) :
  is_nan price = false ->
  bar_inv tf (_create_bar s (_get_period_start ts tf) tf price qty).
Proof.
  intros Hp. unfold bar_inv, _create_bar, _get_period_start. simpl.
  rewrite (PyFacts.leb_refl price Hp).
  split; [ apply Z_mod_mult | ]. repeat split; assumption.
Qed.

Lemma bar_inv_update (tf : Z) (b : bar) (price qty : float) :
  is_nan price = false -> bar_inv tf b -> bar_inv tf (_update_bar b price qty).
Proof.
  intros Hp (Hstart & (Ho & Hh & Hl & Hc) & Hoh & Hch & Hlo & Hlc).
  unfold bar_inv, _update_bar, Py.max, Py.min. simpl.
  split; [ exact Hstart | ].
  destruct (high b <? price)%float eqn:Hhp, (price <? low b)%float eqn:Hpl;
    repeat split; try assumption;
    try (apply PyFacts.leb_refl; assumption);
    try (apply (PyFacts.ltb_false_leb _ _ Hh Hp); assumption);
    try (apply (PyFacts.ltb_false_leb _ _ Hp Hl); assumption);
    try (apply (PyFacts.leb_trans _ (high b)); [ assumption | apply PyFacts.ltb_leb; assumption ]);
    try (apply (PyFacts.leb_trans _ (low b)); [ apply PyFacts.ltb_leb; assumption | assumption ]).
Qed.

(** C9. When the ticks carry prices that are numbers, every bar the
    sampler holds and every bar it has finalized starts at a multiple of
    its timeframe, has [high >= max(open, close)] and has
    [low <= min(open, close)]. *)
Theorem bars_well_formed (cs : list call) :
  real_prices cs ->
  Forall (fun kb => bar_ok kb.1.2 kb.2) (run cs).1 /\
  Forall (fun f => bar_ok (f_timeframe f) (f_bar f)) (run cs).2.
Proof.
  intros Hreal.
  destruct (run_from_inv (fun kb => bar_inv kb.1.2 kb.2)
              (fun f => bar_inv (f_timeframe f) (f_bar f))
              (fun t => is_nan (t_price t) = false)) with (cs := cs) (st := ([] : bars, [] : list finalized))
    as [Hact Hfin].
  - intros t tf Ht. simpl. apply bar_inv_create, Ht.
  - intros t tf b Ht Hb. simpl in *. apply bar_inv_update; assumption.
  - intros k b Hb. exact Hb.
  - exact Hreal.
  - constructor.
  - constructor.
  - split; (eapply Forall_impl; [ eassumption | ]).
    + intros kb. apply bar_inv_ok.
    + intros f. apply bar_inv_ok.
Qed.

(** The three-tick session. *)
Lemma bars_well_formed_witness :
  Forall (fun kb => bar_ok kb.1.2 kb.2) (run three_tick_session).1 /\
  Forall (fun f => bar_ok (f_timeframe f) (f_bar f)) (run three_tick_session).2.
Proof.
  apply (bars_well_formed three_tick_session).
  intros c t Hc Ht. unfold three_tick_session in Hc.
  repeat (apply elem_of_cons in Hc as [-> | Hc]);
    try (inversion Hc); simpl in Ht; inversion Ht; reflexivity.
Defined.

End SamplerFacts.

(** * Further properties of the code *)

(** ** More on the order of floats *)

Module FloatFacts.

Lemma nan_SF (x : float) : is_nan x = true -> Prim2SF x = S754_nan.
Proof.
  rewrite PyFacts.is_nan_SF. destruct (Prim2SF x); try discriminate. reflexivity.
Qed.

(** Every comparison with a NaN is false. *)
Lemma ltb_nan_l (x y : float) : is_nan x = true -> (x <? y)%float = false.
Proof.
  intros Hx. rewrite FloatAxioms.ltb_spec, (nan_SF x Hx). reflexivity.
Qed.

Lemma ltb_nan_r (x y : float) : is_nan y = true -> (x <? y)%float = false.
Proof.
  intros Hy. rewrite FloatAxioms.ltb_spec, (nan_SF y Hy).
  unfold SFltb. destruct (Prim2SF x); reflexivity.
Qed.

Lemma leb_nan_l (x y : float) : is_nan x = true -> (x <=? y)%float = false.
Proof.
  intros Hx. rewrite FloatAxioms.leb_spec, (nan_SF x Hx). reflexivity.
Qed.

Lemma leb_nan_r (x y : float) : is_nan y = true -> (x <=? y)%float = false.
Proof.
  intros Hy. rewrite FloatAxioms.leb_spec, (nan_SF y Hy).
  unfold SFleb. destruct (Prim2SF x); reflexivity.
Qed.

Lemma is_nan_abs (x : float) : is_nan (abs x) = is_nan x.
Proof.
  rewrite !PyFacts.is_nan_SF, abs_spec. destruct (Prim2SF x); reflexivity.
Qed.

Lemma fkey_abs (x : float) :
  Py.fkey (abs x) =
  if (Py.fkey x).1.1 <? 0
  then (- (Py.fkey x).1.1, - (Py.fkey x).1.2, - (Py.fkey x).2)
  else Py.fkey x.
Proof.
  unfold Py.fkey. rewrite abs_spec.
  destruct (Prim2SF x) as [s | s | | s m e]; try destruct s; simpl;
    rewrite ?Z.opp_involutive; reflexivity.
Qed.

(** The key of a zero is the only one that starts with [0]. *)
Lemma fkey_zero_shape (x : float) :
  (Py.fkey x).1.1 = 0 -> (Py.fkey x).1.2 = 0 /\ (Py.fkey x).2 = 0.
Proof.
  unfold Py.fkey.
  destruct (Prim2SF x) as [s | s | | s m e]; try destruct s; simpl; intros H;
    try discriminate H; auto.
Qed.

(** [abs(z) < t] excludes both [z > t] and [z < -t]. *)
Lemma abs_ltb_bounds (z t : float) :
  (abs z <? t)%float = true ->
  (t <? z)%float = false /\ (z <? - t)%float = false.
Proof.
  intros Habs. destruct (PyFacts.ltb_true_not_nan _ _ Habs) as [Ha Ht].
  rewrite is_nan_abs in Ha.
  apply PyFacts.ltb_key in Habs; [ | rewrite is_nan_abs; exact Ha | exact Ht ].
  rewrite fkey_abs in Habs.
  pose proof (fkey_zero_shape z) as Hzs. pose proof (fkey_zero_shape t) as Hts.
  split; apply Bool.not_true_iff_false; intros H.
  - apply PyFacts.ltb_key in H; auto.
    destruct ((Py.fkey z).1.1 <? 0) eqn:Hs;
      [ apply Z.ltb_lt in Hs | apply Z.ltb_ge in Hs ];
      unfold Py.klt in *; simpl in *; lia.
  - apply PyFacts.ltb_key in H; auto; [ | rewrite PyFacts.is_nan_opp; exact Ht ].
    rewrite PyFacts.fkey_opp in H.
    destruct ((Py.fkey z).1.1 <? 0) eqn:Hs;
      [ apply Z.ltb_lt in Hs | apply Z.ltb_ge in Hs ];
      unfold Py.klt in *; simpl in *; lia.
Qed.

(** On floats that are not NaN, [<] is the negation of the converse [<=]. *)
Lemma leb_false_ltb (x y : float) :
  is_nan x = false -> is_nan y = false ->
  (x <=? y)%float = false -> (y <? x)%float = true.
Proof.
  intros Hx Hy Hle. apply PyFacts.ltb_key; auto.
  apply Bool.not_true_iff_false in Hle.
  rewrite (PyFacts.leb_key x y Hx Hy) in Hle.
  unfold Py.klt, Py.kle in *. lia.
Qed.

End FloatFacts.

(** ** The alert engine over runs *)

Section AlertEngineMore.
Import AlertEngine AlertRuns.

Variable fmt_2f : float -> string.
Variable str_float : float -> string.

Abbreviation evaluate' := (AlertEngine.evaluate fmt_2f str_float).
Abbreviation eval_call' := (AlertEngine.eval_call fmt_2f str_float).
Abbreviation run' := (AlertEngine.run fmt_2f str_float).

(** A call that neither alerts nor resets leaves the engine as it was. *)
Lemma quiet_call_keeps_engine (e e' : engine) (c : call) :
  eval_call' e c = (e', None) -> is_reset e c = false -> e' = e.
Proof.
  unfold AlertEngine.eval_call, AlertEngine.evaluate, is_reset.
  destruct (c_z c), (c_corr c), (c_adf c); try (intros H _; inversion H; reflexivity).
  destruct (current_state e) eqn:Hst.
  - intros H Hr. rewrite Hr in H. inversion H. reflexivity.
  - repeat match goal with
           | |- context [if ?b then _ else _] => destruct b
           end; intros H _; inversion H; reflexivity.
Qed.

Lemma run_cons' (e : engine) (c : call) (cs : list call) :
  run' e (c :: cs) =
  mk_step e c (eval_call' e c).1 (eval_call' e c).2 :: run' (eval_call' e c).1 cs.
Proof. simpl. destruct (eval_call' e c). reflexivity. Qed.

Lemma alerts_bounded_from (cs : list call) : forall e : engine,
  (count_alerts (run' e cs) <= count_resets (run' e cs) + slack e)%nat.
Proof.
  induction cs as [| c cs IH]; intros e.
  - unfold count_alerts, count_resets. simpl. lia.
  - rewrite run_cons'.
    specialize (IH (eval_call' e c).1). unfold count_alerts, count_resets in *.
    cbn [List.filter]. unfold is_alert at 1, is_reset_step at 1.
    cbn [s_out s_before s_call].
    destruct (eval_call' e c) as [e1 o1] eqn:Hc. cbn [fst snd] in *.
    destruct o1 as [a |].
    + destruct (alert_enters_signal fmt_2f str_float e e1 c a Hc) as [Hnone Hheld].
      assert (Hr : is_reset e c = false).
      { unfold is_reset. rewrite Hnone.
        destruct (c_z c), (c_corr c), (c_adf c); reflexivity. }
      rewrite Hr. unfold slack in *. rewrite Hnone.
      destruct (current_state e1); [ | congruence ].
      cbn [length]. cbn beta iota in *. lia.
    + destruct (is_reset e c) eqn:Hr.
      * cbn [length]. unfold slack in *.
        destruct (current_state e), (current_state e1); cbn beta iota in *; lia.
      * pose proof (quiet_call_keeps_engine e e1 c Hc Hr) as He. subst e1. lia.
Qed.

(** In every run the alerts number at most one more than the calls that
    took the reset branch. *)
Theorem alerts_bounded_by_resets (e : engine) (cs : list call) :
  (count_alerts (run' e cs) <= count_resets (run' e cs) + 1)%nat.
Proof.
  pose proof (alerts_bounded_from cs e) as H. unfold slack in H.
  destruct (current_state e); cbn beta iota in H; lia.
Qed.

(** Every alert is justified by its inputs: all three were given, the
    engine held no signal, the correlation was not below
    [min_correlation], the result was stationary, and the alert carries
    the call's timestamp, z-score and correlation with the signal that
    the z-score calls for, which is also the new state. *)
Theorem alert_is_justified (e e' : engine) (z corr : option float)
    (adf : option (gmap string Py.pyval)) (ts : string) (a : alert) :
  evaluate' e z corr adf ts = (e', Some a) ->
  exists (zv cv : float) (d : gmap string Py.pyval),
    z = Some zv /\ corr = Some cv /\ adf = Some d /\
    current_state e = None /\
    (cv <? min_correlation e)%float = false /\ is_stationary d = true /\
    alert_timestamp a = ts /\ alert_z_score a = zv /\ alert_correlation a = cv /\
    (((threshold e <=? zv)%float = true /\
      alert_signal a = "SHORT" /\ current_state e' = Some SHORT) \/
     ((threshold e <=? zv)%float = false /\ (zv <=? - threshold e)%float = true /\
      alert_signal a = "LONG" /\ current_state e' = Some LONG)).
Proof.
  unfold AlertEngine.evaluate.
  destruct z as [zv |], corr as [cv |], adf as [d |]; try discriminate.
  destruct (current_state e) eqn:Hst.
  - destruct (abs zv <? _)%float; discriminate.
  - destruct (cv <? min_correlation e)%float eqn:Hc; [ discriminate | ].
    destruct (is_stationary d) eqn:Hs; simpl; [ | discriminate ].
    destruct (threshold e <=? zv)%float eqn:Hup.
    + intros H. inversion H; subst. exists zv, cv, d. simpl. tauto.
    + destruct (zv <=? - threshold e)%float eqn:Hdn; [ | discriminate ].
      intros H. inversion H; subst. exists zv, cv, d. simpl. tauto.
Qed.

(** A NaN z-score does nothing, in every state and for every threshold:
    it neither resets a held signal nor triggers one. *)
Theorem nan_zscore_inert (e : engine) (z : float) (corr : option float)
    (adf : option (gmap string Py.pyval)) (ts : string) :
  is_nan z = true ->
  evaluate' e (Some z) corr adf ts = (e, None).
Proof.
  intros Hz. unfold AlertEngine.evaluate.
  destruct corr as [cv |], adf as [d |]; try reflexivity.
  rewrite (FloatFacts.ltb_nan_l (abs z) _) by (rewrite FloatFacts.is_nan_abs; exact Hz).
  rewrite (FloatFacts.leb_nan_r _ z Hz), (FloatFacts.leb_nan_l z _ Hz).
  destruct (current_state e); [ reflexivity | ].
  destruct (cv <? min_correlation e)%float; [ reflexivity | ].
  destruct (is_stationary d); reflexivity.
Qed.

(** A run changes nothing of an engine but [current_state]: the three
    thresholds after every call are those the engine was built with. *)
Theorem run_keeps_parameters (cs : list call) : forall (e : engine) (s : step),
  s ∈ run' e cs -> same_parameters e (s_after s).
Proof.
  assert (Hstep : forall e c, same_parameters e (eval_call' e c).1).
  { intros e c. unfold AlertEngine.eval_call, AlertEngine.evaluate, same_parameters.
    destruct (c_z c), (c_corr c), (c_adf c), (current_state e);
      repeat match goal with
             | |- context [if ?b then _ else _] => destruct b
             end; simpl; auto. }
  induction cs as [| c cs IH]; intros e s Hs.
  - inversion Hs.
  - rewrite run_cons' in Hs. apply elem_of_cons in Hs as [-> | Hs].
    + simpl. apply Hstep.
    + specialize (IH _ _ Hs). specialize (Hstep e c).
      unfold same_parameters in *. intuition congruence.
Qed.

End AlertEngineMore.

(** The first call of the test run. *)
Lemma alert_is_justified_witness :
  exists (zv cv : float) (d : gmap string Py.pyval),
    Some 2.5%float = Some zv /\ Some 0.9%float = Some cv /\
    Some AlertEngine.adf_stationary = Some d /\
    AlertEngine.current_state AlertEngine.default_engine = None /\
    (cv <? AlertEngine.min_correlation AlertEngine.default_engine)%float = false /\
    AlertEngine.is_stationary d = true /\
    AlertEngine.alert_timestamp
      (AlertEngine.mk_alert "t" "SHORT" 2.5 0.9
         "Z-Score () >= Threshold () [Overbought]") = "t" /\
    AlertEngine.alert_z_score (AlertEngine.mk_alert "t" "SHORT" 2.5 0.9
         "Z-Score () >= Threshold () [Overbought]") = zv /\
    AlertEngine.alert_correlation (AlertEngine.mk_alert "t" "SHORT" 2.5 0.9
         "Z-Score () >= Threshold () [Overbought]") = cv /\
    (((AlertEngine.threshold AlertEngine.default_engine <=? zv)%float = true /\
      AlertEngine.alert_signal (AlertEngine.mk_alert "t" "SHORT" 2.5 0.9
         "Z-Score () >= Threshold () [Overbought]") = "SHORT" /\
      AlertEngine.current_state
        (AlertEngine.set_state AlertEngine.default_engine (Some AlertEngine.SHORT))
        = Some AlertEngine.SHORT) \/
     ((AlertEngine.threshold AlertEngine.default_engine <=? zv)%float = false /\
      (zv <=? - AlertEngine.threshold AlertEngine.default_engine)%float = true /\
      AlertEngine.alert_signal (AlertEngine.mk_alert "t" "SHORT" 2.5 0.9
         "Z-Score () >= Threshold () [Overbought]") = "LONG" /\
      AlertEngine.current_state
        (AlertEngine.set_state AlertEngine.default_engine (Some AlertEngine.SHORT))
        = Some AlertEngine.LONG)).
Proof.
  apply (alert_is_justified AlertEngine.no_text AlertEngine.no_text
           AlertEngine.default_engine _ (Some 2.5%float) (Some 0.9%float)
           (Some AlertEngine.adf_stationary) "t").
  vm_compute. reflexivity.
Defined.

Lemma nan_zscore_inert_witness :
  AlertEngine.evaluate AlertEngine.no_text AlertEngine.no_text
    (AlertEngine.set_state AlertEngine.default_engine (Some AlertEngine.LONG))
    (Some nan) (Some 0.9%float) (Some AlertEngine.adf_stationary) "t"
  = (AlertEngine.set_state AlertEngine.default_engine (Some AlertEngine.LONG), None).
Proof.
  apply (nan_zscore_inert AlertEngine.no_text AlertEngine.no_text).
  reflexivity.
Defined.

Lemma run_keeps_parameters_witness :
  AlertRuns.same_parameters AlertEngine.default_engine
    (AlertEngine.set_state AlertEngine.default_engine (Some AlertEngine.SHORT)).
Proof.
  apply (run_keeps_parameters AlertEngine.no_text AlertEngine.no_text
           AlertEngine.test_calls AlertEngine.default_engine
           (AlertEngine.mk_step AlertEngine.default_engine
              (AlertEngine.test_call 2.5 0.9)
              (AlertEngine.set_state AlertEngine.default_engine (Some AlertEngine.SHORT))
              (Some (AlertEngine.mk_alert "2025-01-01T10:00:00" "SHORT" 2.5 0.9
                      "Z-Score () >= Threshold () [Overbought]")))).
  vm_compute. apply list_elem_of_here.
Defined.

(** ** More on the z-score, the spread and the hedge ratio *)

Module AnalyticsMore.

Lemma replace_inf_not_infinite (z : float) : is_infinity (Pd.replace_inf z) = false.
Proof.
  unfold Pd.replace_inf.
  destruct ((z =? infinity) || (z =? neg_infinity))%float eqn:Hinf;
    [ reflexivity | ].
  apply Bool.orb_false_iff in Hinf as [Hp Hn].
  unfold is_infinity. rewrite FloatAxioms.eqb_spec in *. rewrite abs_spec.
  replace (Prim2SF infinity) with (S754_infinity false) in * by (vm_compute; reflexivity).
  replace (Prim2SF neg_infinity) with (S754_infinity true) in * by (vm_compute; reflexivity).
  destruct (Prim2SF z) as [s | s | | s m e]; try destruct s; try reflexivity;
    try discriminate Hp; discriminate Hn.
Qed.

Lemma length_rolling (w : nat) (stat : list float -> float) (s : list float) :
  length (Pd.rolling w stat s) = length s.
Proof. unfold Pd.rolling. apply length_imap. Qed.

(** [compute_zscore] raises exactly for a window of at most one, and
    otherwise returns one z-score per input value (none for an empty
    series). *)
Theorem compute_zscore_shape (series : list float) (window : Z) :
  (window <= 1 ->
     Analytics.compute_zscore series window
       = Py.RaiseValueError "Window size must be greater than 1.") /\
  (1 < window ->
     exists zs, Analytics.compute_zscore series window = Py.Return zs /\
                length zs = length series).
Proof.
  unfold Analytics.compute_zscore. split; intros Hw.
  - rewrite (proj2 (Z.leb_le _ _) Hw). reflexivity.
  - rewrite (proj2 (Z.leb_gt _ _) Hw).
    destruct (length series =? 0)%nat eqn:Hl.
    + apply Nat.eqb_eq in Hl. exists []. split; [ reflexivity | ]. simpl. lia.
    + eexists. split; [ reflexivity | ].
      rewrite length_fmap, length_zip_with, length_zip_with, !length_rolling. lia.
Qed.

(** No z-score returned by [compute_zscore] is infinite: a division by a
    zero deviation comes out as NaN. *)
Theorem compute_zscore_no_infinity (series : list float) (window : Z)
    (zs : list float) (v : float) :
  Analytics.compute_zscore series window = Py.Return zs ->
  v ∈ zs -> is_infinity v = false.
Proof.
  unfold Analytics.compute_zscore.
  destruct (window <=? 1); [ discriminate | ].
  destruct (length series =? 0)%nat.
  - intros H Hv. inversion H; subst. inversion Hv.
  - intros H Hv. inversion H; subst. clear H.
    apply list_elem_of_fmap in Hv as (z & -> & _).
    apply replace_inf_not_infinite.
Qed.

(** [compute_hedge_ratio] returns a number only when the series have the
    same length, at least two points and finite values only, and then it
    is the slope [np.polyfit] fitted. *)
Theorem hedge_ratio_needs_preconditions
    (polyfit : list float -> list float -> option (float * float))
    (x y : list float) (beta : float) :
  Analytics.compute_hedge_ratio polyfit x y = Py.Return (Some beta) ->
  Analytics.preconditions x y = true /\
  exists intercept, polyfit x y = Some (beta, intercept).
Proof.
  unfold Analytics.compute_hedge_ratio, Analytics.preconditions.
  destruct (length x =? length y)%nat eqn:Heq; cbn [negb]; [ | discriminate ].
  destruct (length x <? 2)%nat eqn:Hlen; [ discriminate | ].
  apply Nat.ltb_ge in Hlen.
  destruct (Np.all_finite x) eqn:Hx, (Np.all_finite y) eqn:Hy;
    cbn [negb orb]; try discriminate.
  destruct (polyfit x y) as [[slope c] |]; [ | discriminate ].
  intros H. inversion H; subst. split.
  - rewrite (proj2 (Nat.leb_le _ _) Hlen). reflexivity.
  - exists c. reflexivity.
Qed.

(** A window of ten over a series of three. *)
Lemma compute_zscore_shape_witness :
  exists zs, Analytics.compute_zscore [1; 2; 3]%float 10 = Py.Return zs /\
             length zs = length [1; 2; 3]%float.
Proof.
  apply (compute_zscore_shape [1; 2; 3]%float 10). lia.
Defined.

(** The last value of [0, 0, 0, 0, 5] under a window of five. *)
Lemma compute_zscore_no_infinity_witness :
  is_infinity 1.7888543819998317 = false.
Proof.
  apply (compute_zscore_no_infinity [0; 0; 0; 0; 5]%float 5
           [nan; nan; nan; nan; 1.7888543819998317%float]).
  - vm_compute. reflexivity.
  - set_solver.
Defined.

(** A fit that returns slope [2] on two points. *)
Lemma hedge_ratio_needs_preconditions_witness :
  Analytics.preconditions [1; 2]%float [2; 4]%float = true /\
  exists intercept,
    (fun _ _ : list float => Some (2%float, 0%float)) [1; 2]%float [2; 4]%float
      = Some (2%float, intercept).
Proof.
  apply (hedge_ratio_needs_preconditions (fun _ _ => Some (2%float, 0%float))
           [1; 2]%float [2; 4]%float 2%float).
  vm_compute. reflexivity.
Defined.

End AnalyticsMore.

(** ** The stationarity test *)

Section AdfTestFacts.
Import AdfTest.

Lemma filter_filter_implied {A : Type} (f g : A -> bool) (l : list A) :
  (forall x, f x = true -> g x = true) ->
  List.filter f (List.filter g l) = List.filter f l.
Proof.
  intros Himp. induction l as [| x l IH]; simpl; [ reflexivity | ].
  destruct (g x) eqn:Hg; simpl.
  - rewrite IH. reflexivity.
  - destruct (f x) eqn:Hf; [ | exact IH ].
    rewrite (Himp x Hf) in Hg. discriminate Hg.
Qed.

(** The two cleaning steps keep exactly the finite values. *)
Lemma clean_finite (series : list float) :
  clean series = List.filter is_finite series.
Proof.
  unfold clean. apply filter_filter_implied.
  intros x. unfold is_finite. destruct (is_nan x); simpl; [ discriminate | reflexivity ].
Qed.

Lemma clean_all_finite (series : list float) :
  Forall (fun x => is_finite x = true) (clean series).
Proof.
  rewrite clean_finite. apply Forall_forall. intros x Hx.
  apply list_elem_of_In, filter_In in Hx. apply Hx.
Qed.

Lemma clean_idempotent (series : list float) : clean (clean series) = clean series.
Proof.
  rewrite !clean_finite. apply filter_filter_implied. auto.
Qed.

Lemma result_dict_is_stationary (a p : float) (b : bool) :
  result_dict a p b !! "is_stationary" = Some (Py.PyBool b).
Proof.
  unfold result_dict.
  rewrite lookup_insert_ne by discriminate.
  rewrite lookup_insert_ne by discriminate.
  apply lookup_insert_eq.
Qed.

Variable adfuller : list float -> option (float * float).

Abbreviation run_adf_test := (AdfTest.run_adf_test adfuller).
Abbreviation tested := (AdfTest.tested adfuller).

Lemma run_adf_test_returns (series : list float) :
  series <> [] -> run_adf_test series = Returns (tested series).
Proof. destruct series; [ congruence | reflexivity ]. Qed.

Lemma clean_nonempty (series : list float) : clean series <> [] -> series <> [].
Proof. intros Hc ->. apply Hc. reflexivity. Qed.

(** An empty list raises [TypeError]. For a list that is not empty, with
    fewer than ten finite values the test is not run and the neutral
    result comes back, whatever else the series holds. *)
Theorem adf_short_series_neutral (series : list float) :
  run_adf_test [] = RaisesTypeError /\
  (series <> [] ->
   (length (List.filter is_finite series) < 10)%nat ->
   run_adf_test series = Returns neutral).
Proof.
  split; [ reflexivity | ]. intros Hne Hlen.
  rewrite (run_adf_test_returns series Hne). f_equal.
  unfold AdfTest.tested. rewrite clean_finite.
  rewrite (proj2 (Nat.ltb_lt _ _) Hlen). reflexivity.
Qed.

(** A returned result always carries a boolean under ['is_stationary'],
    and it is [True] exactly when at least ten finite values were there,
    [adfuller] returned on them, and its p-value is below [0.05]. *)
Lemma is_stationary_entry (series : list float) :
  exists b : bool,
    tested series !! "is_stationary" = Some (Py.PyBool b) /\
    (b = true <->
     (10 <= length (clean series))%nat /\
     exists stat p, adfuller (clean series) = Some (stat, p) /\
                    (p <? 0.05)%float = true).
Proof.
  unfold AdfTest.tested, neutral.
  destruct (length (clean series) <? 10)%nat eqn:Hlen.
  - exists false. split; [ apply result_dict_is_stationary | ].
    apply Nat.ltb_lt in Hlen. split; [ discriminate | ]. intros [Hge _]. lia.
  - apply Nat.ltb_ge in Hlen.
    destruct (adfuller (clean series)) as [[stat p] |] eqn:Hadf.
    + exists (p <? 0.05)%float. split; [ apply result_dict_is_stationary | ].
      split.
      * intros Hp. split; [ exact Hlen | ]. exists stat, p. auto.
      * intros (_ & stat' & p' & Heq & Hp). inversion Heq; subst. exact Hp.
    + exists false. split; [ apply result_dict_is_stationary | ].
      split; [ discriminate | ]. intros (_ & stat' & p' & Heq & _). discriminate Heq.
Qed.

(** [run_adf_test] returns a result that the alert engine reads as
    stationary exactly when the series had at least ten finite values,
    [adfuller] returned on them, and its p-value is below [0.05]; a short
    series, a failed test and a NaN p-value all read as not stationary,
    and an empty list returns nothing. *)
Theorem adf_stationary_means_small_p (series : list float) :
  (exists d, run_adf_test series = Returns d /\
             AlertEngine.is_stationary d = true) <->
  (10 <= length (clean series))%nat /\
  exists stat p, adfuller (clean series) = Some (stat, p) /\
                 (p <? 0.05)%float = true.
Proof.
  destruct (is_stationary_entry series) as (b & Hb & Hiff).
  assert (Hread : AlertEngine.is_stationary (tested series) = b).
  { unfold AlertEngine.is_stationary, Py.dict_get. rewrite Hb. reflexivity. }
  split.
  - intros (d & Hd & Hs). destruct series as [| x series]; [ discriminate Hd | ].
    inversion Hd; subst d. apply Hiff. congruence.
  - intros Hpass. exists (tested series). split.
    + apply run_adf_test_returns. destruct Hpass as [Hlen _].
      intros ->. simpl in Hlen. lia.
    + rewrite Hread. apply Hiff, Hpass.
Qed.

End AdfTestFacts.

(** The test only ever sees finite values, ten or more of them: two
    implementations of [adfuller] that agree on such lists give the same
    outcome on every series. The values that are not finite can be
    dropped beforehand, as long as that leaves a list that is not empty
    (the empty list raises). *)
Theorem adf_sees_finite_values_only
    (f g : list float -> option (float * float)) (series : list float) :
  (forall l, Forall (fun x => is_finite x = true) l -> (10 <= length l)%nat ->
             f l = g l) ->
  AdfTest.run_adf_test f series = AdfTest.run_adf_test g series /\
  (List.filter is_finite series <> [] ->
   AdfTest.run_adf_test f series
     = AdfTest.run_adf_test g (List.filter is_finite series)).
Proof.
  intros Hagree.
  assert (Htested : AdfTest.tested f series = AdfTest.tested g series).
  { unfold AdfTest.tested.
    destruct (length (AdfTest.clean series) <? 10)%nat eqn:Hlen; [ reflexivity | ].
    apply Nat.ltb_ge in Hlen.
    rewrite (Hagree _ (clean_all_finite series) Hlen). reflexivity. }
  split.
  - destruct series; [ reflexivity | ]. simpl. rewrite Htested. reflexivity.
  - intros Hne. rewrite <- (clean_finite series) in *.
    rewrite (run_adf_test_returns f series (clean_nonempty series Hne)).
    rewrite (run_adf_test_returns g _ Hne). f_equal.
    rewrite Htested. unfold AdfTest.tested. rewrite clean_idempotent. reflexivity.
Qed.

Section AdfAlerts.

Variable fmt_2f : float -> string.
Variable str_float : float -> string.
Variable adfuller : list float -> option (float * float).

(** When the engine is given the result that [run_adf_test] returned on
    a series, an alert is returned only if the series had at least ten
    finite values and [adfuller] gave a p-value below [0.05] on them. *)
Theorem alert_needs_passed_adf_test (e e' : AlertEngine.engine)
    (z corr : option float) (series : list float) (d : gmap string Py.pyval)
    (ts : string) (a : AlertEngine.alert) :
  AdfTest.run_adf_test adfuller series = AdfTest.Returns d ->
  AlertEngine.evaluate fmt_2f str_float e z corr (Some d) ts = (e', Some a) ->
  (10 <= length (AdfTest.clean series))%nat /\
  exists stat p, adfuller (AdfTest.clean series) = Some (stat, p) /\
                 (p <? 0.05)%float = true.
Proof.
  intros Hrun Heval.
  assert (Hs : AlertEngine.is_stationary d = true).
  { revert Heval. unfold AlertEngine.evaluate.
    destruct z, corr; try discriminate.
    destruct (AlertEngine.current_state e).
    - destruct (abs _ <? _)%float; discriminate.
    - destruct (_ <? _)%float; [ discriminate | ].
      destruct (AlertEngine.is_stationary _); [ reflexivity | discriminate ]. }
  destruct series as [| x series]; [ discriminate Hrun | ].
  inversion Hrun; subst d.
  destruct (is_stationary_entry adfuller (x :: series)) as (b & Hb & Hiff).
  unfold AlertEngine.is_stationary, Py.dict_get in Hs. rewrite Hb in Hs.
  simpl in Hs. apply Hiff, Hs.
Qed.

End AdfAlerts.

(** Nine finite values among eleven. *)
Lemma adf_short_series_neutral_witness :
  AdfTest.run_adf_test (fun _ => Some (0%float, 0%float))
    [1; 2; nan; 3; 4; 5; infinity; 6; 7; 8; 9]%float
  = AdfTest.Returns AdfTest.neutral.
Proof.
  apply (adf_short_series_neutral (fun _ => Some (0%float, 0%float))).
  - discriminate.
  - vm_compute. lia.
Defined.

(** A list of one NaN returns the neutral result; the list that is left
    of it after dropping the NaN raises. *)
Example adf_nan_only_versus_empty :
  AdfTest.run_adf_test (fun _ => Some (0%float, 0%float)) [nan]
    = AdfTest.Returns AdfTest.neutral /\
  AdfTest.run_adf_test (fun _ => Some (0%float, 0%float))
    (List.filter is_finite [nan]) = AdfTest.RaisesTypeError.
Proof. split; vm_compute; reflexivity. Qed.

(** Two stand-ins for [adfuller] that differ only on short lists. *)
Lemma adf_sees_finite_values_only_witness :
  AdfTest.run_adf_test
    (fun l => if (length l <? 10)%nat then None else Some (0%float, 0.01%float))
    AdfTest.noisy_series
  = AdfTest.run_adf_test (fun _ => Some (0%float, 0.01%float))
      (List.filter is_finite AdfTest.noisy_series).
Proof.
  apply (adf_sees_finite_values_only
           (fun l => if (length l <? 10)%nat then None else Some (0%float, 0.01%float))
           (fun _ => Some (0%float, 0.01%float)) AdfTest.noisy_series).
  - intros l _ Hlen. rewrite (proj2 (Nat.ltb_ge _ _) Hlen). reflexivity.
  - vm_compute. discriminate.
Defined.

(** The noisy series with a p-value of [0.01]: a SHORT alert at
    [z = 2.5]. *)
Lemma alert_needs_passed_adf_test_witness :
  (10 <= length (AdfTest.clean AdfTest.noisy_series))%nat /\
  exists stat p,
    (fun _ : list float => Some (0%float, 0.01%float))
      (AdfTest.clean AdfTest.noisy_series) = Some (stat, p) /\
    (p <? 0.05)%float = true.
Proof.
  apply (alert_needs_passed_adf_test AlertEngine.no_text AlertEngine.no_text
           (fun _ => Some (0%float, 0.01%float))
           AlertEngine.default_engine
           (AlertEngine.set_state AlertEngine.default_engine (Some AlertEngine.SHORT))
           (Some 2.5%float) (Some 0.9%float) AdfTest.noisy_series
           (AdfTest.tested (fun _ => Some (0%float, 0.01%float)) AdfTest.noisy_series)
           "t"
           (AlertEngine.mk_alert "t" "SHORT" 2.5 0.9
              "Z-Score () >= Threshold () [Overbought]")).
  - reflexivity.
  - vm_compute. reflexivity.
Defined.

(** ** Sessions of the live path *)

Section LiveMore.
Import BinanceWs LiveRuns.

Variable fmt_2f : float -> string.
Variable str_float : float -> string.
Variable corrcoef : list float -> list float -> float.

Abbreviation update_alerts' := (BinanceWs.update_alerts fmt_2f str_float).
Abbreviation update_analytics' := (BinanceWs.update_analytics fmt_2f str_float corrcoef).
Abbreviation process_message' := (BinanceWs.process_message fmt_2f str_float corrcoef).
Abbreviation process_all' := (BinanceWs.process_all fmt_2f str_float corrcoef).

Lemma process_all_inv (I : state -> Prop) (cfg : config) :
  (forall ts m st, I st -> I (process_message' cfg ts m st)) ->
  forall (msgs : list (string * message)) (st : state),
  I st -> I (process_all' cfg msgs st).
Proof.
  intros Hstep msgs. unfold BinanceWs.process_all.
  induction msgs as [| [ts m] msgs IH]; intros st Hst; simpl; [ exact Hst | ].
  apply IH, Hstep, Hst.
Qed.

Lemma prices_update_analytics (cfg : config) (ts : string) (st : state) :
  btc_prices (update_analytics' cfg ts st) = btc_prices st /\
  eth_prices (update_analytics' cfg ts st) = eth_prices st.
Proof.
  unfold BinanceWs.update_analytics. destruct (length _ <? 5)%nat; split; reflexivity.
Qed.

Lemma history_update_analytics (cfg : config) (ts : string) (st : state) :
  (length (history_data st) <= WINDOW_SIZE)%nat ->
  (length (history_data (update_analytics' cfg ts st)) <= WINDOW_SIZE)%nat.
Proof.
  intros Hh. unfold BinanceWs.update_analytics.
  destruct (length _ <? 5)%nat; simpl; [ exact Hh | ].
  destruct (WINDOW_SIZE <? _)%nat eqn:Hc.
  - rewrite length_drop, length_app. simpl. lia.
  - apply Nat.ltb_ge in Hc. exact Hc.
Qed.

(** What a call of [process_message] can be: nothing, one price
    appended, or one price appended and the analytics updated. *)
Lemma process_message_cases (cfg : config) (ts : string) (m : message) (st : state) :
  let appended_btc p :=
    mk_state (deque_append WINDOW_SIZE (btc_prices st) p) (eth_prices st)
      (spread_history st) (history_data st) (latest_alert st) in
  let appended_eth p :=
    mk_state (btc_prices st) (deque_append WINDOW_SIZE (eth_prices st) p)
      (spread_history st) (history_data st) (latest_alert st) in
  process_message' cfg ts m st = st \/
  exists p st1, (st1 = appended_btc p \/ st1 = appended_eth p) /\
    (process_message' cfg ts m st = st1 \/
     ((2 <= length (btc_prices st1))%nat /\ (2 <= length (eth_prices st1))%nat /\
      process_message' cfg ts m st = update_analytics' cfg ts st1)).
Proof.
  intros appended_btc appended_eth. unfold BinanceWs.process_message.
  destruct (m_p m) as [p |]; [ | left; reflexivity ].
  match goal with
  | |- context [match ?u with Some st' => _ | None => st end] =>
      assert (Hu : u = None \/ u = Some (appended_btc p) \/ u = Some (appended_eth p))
  end.
  { destruct (m_s m) as [s |]; [ | left; reflexivity ].
    repeat (destruct s as [| [[] [] [] [] [] [] [] []] s];
            try (left; reflexivity));
      try (right; left; reflexivity); right; right; reflexivity. }
  destruct Hu as [-> | [-> | ->]]; [ left; reflexivity | | ]; right.
  - exists p, (appended_btc p). split; [ left; reflexivity | ].
    destruct (_ && _) eqn:Hc; [ | left; reflexivity ].
    apply andb_true_iff in Hc as [H1 H2]. apply Nat.ltb_lt in H1, H2.
    right. split; [ lia | ]. split; [ lia | reflexivity ].
  - exists p, (appended_eth p). split; [ right; reflexivity | ].
    destruct (_ && _) eqn:Hc; [ | left; reflexivity ].
    apply andb_true_iff in Hc as [H1 H2]. apply Nat.ltb_lt in H1, H2.
    right. split; [ lia | ]. split; [ lia | reflexivity ].
Qed.

Lemma length_deque_append_le (d : list float) (x : float) :
  (length (deque_append WINDOW_SIZE d x) <= WINDOW_SIZE)%nat /\
  (length d <= WINDOW_SIZE ->
   length d <= length (deque_append WINDOW_SIZE d x))%nat /\
  (2 <= length d -> 2 <= length (deque_append WINDOW_SIZE d x))%nat.
Proof.
  rewrite length_deque_append. unfold WINDOW_SIZE. lia.
Qed.

(** The data point a call of [update_analytics] publishes once the
    window has its five values, and the alert it leaves. *)
Lemma update_analytics_point (cfg : config) (ts : string) (st : state) :
  (4 <= length (spread_history st))%nat ->
  let spread :=
    (List.last (btc_prices st) 0 - 25.0 * List.last (eth_prices st) 0)%float in
  let dp :=
    mk_data_point ts
      (live_zscore spread (deque_append WINDOW_SIZE (spread_history st) spread))
      spread (live_correlation corrcoef (btc_prices st) (eth_prices st)) 25.0 in
  last (history_data (update_analytics' cfg ts st)) = Some dp /\
  latest_alert (update_analytics' cfg ts st) = update_alerts' cfg dp (latest_alert st).
Proof.
  intros Hlen. cbv zeta. unfold BinanceWs.update_analytics.
  rewrite length_deque_append.
  assert (Hc : (Nat.min (length (spread_history st) + 1) WINDOW_SIZE <? 5)%nat = false)
    by (apply Nat.ltb_ge; unfold WINDOW_SIZE; lia).
  rewrite Hc. simpl. split; [ apply last_capped | reflexivity ].
Qed.

(** Buffers that are within the window size stay within it through any
    session: the three deques and [history_data] never hold more than
    fifty elements. *)
Theorem buffers_bounded (cfg : config) (msgs : list (string * message)) (st : state) :
  bounded st -> bounded (process_all' cfg msgs st).
Proof.
  apply process_all_inv. clear st. intros ts m st (Hb & He & Hs & Hh).
  destruct (process_message_cases cfg ts m st)
    as [-> | (p & st1 & Hst1 & Hres)]; [ unfold bounded; auto | ].
  assert (Hb1 : bounded st1).
  { destruct Hst1 as [-> | ->]; unfold bounded; simpl;
      repeat split; auto; apply length_deque_append_le. }
  destruct Hres as [-> | (_ & _ & ->)]; [ exact Hb1 | ].
  destruct Hb1 as (Hb1 & He1 & Hs1 & Hh1).
  destruct (prices_update_analytics cfg ts st1) as [Hpb Hpe].
  unfold bounded. rewrite Hpb, Hpe.
  rewrite (spread_history_update_analytics fmt_2f str_float corrcoef).
  repeat split; auto; [ apply length_deque_append_le | ].
  apply history_update_analytics, Hh1.
Qed.

(** From start-up, whatever the messages: [history_data] and
    [latest_alert] are untouched until the spread window holds five
    values, and no spread is computed before both symbols have two
    prices. *)
Theorem no_publication_before_warmup (cfg : config) (h : list data_point)
    (la : latest) (msgs : list (string * message)) :
  warmed_or_silent h la (process_all' cfg msgs (initial_state h la)) /\
  paired (process_all' cfg msgs (initial_state h la)).
Proof.
  apply (process_all_inv (fun st => warmed_or_silent h la st /\ paired st)).
  - intros ts m st [Hw Hp].
    destruct (process_message_cases cfg ts m st)
      as [-> | (p & st1 & Hst1 & Hres)]; [ auto | ].
    assert (Hs1 : spread_history st1 = spread_history st
                  /\ history_data st1 = history_data st
                  /\ latest_alert st1 = latest_alert st)
      by (destruct Hst1 as [-> | ->]; auto).
    destruct Hs1 as (Hsh & Hhd & Hla).
    destruct Hres as [-> | (Hb & He & ->)].
    + split.
      * unfold warmed_or_silent in *. rewrite Hsh, Hhd, Hla. exact Hw.
      * unfold paired in *. rewrite Hsh.
        destruct Hp as [Hp | [Hp1 Hp2]]; [ left; exact Hp | right ].
        destruct Hst1 as [-> | ->]; simpl; split; auto;
          apply length_deque_append_le; assumption.
    + destruct (prices_update_analytics cfg ts st1) as [Hpb Hpe].
      split; [ | right; rewrite Hpb, Hpe; auto ].
      unfold warmed_or_silent in *.
      rewrite (spread_history_update_analytics fmt_2f str_float corrcoef).
      rewrite length_deque_append, Hsh.
      destruct (update_analytics_publishes fmt_2f str_float corrcoef cfg ts st1)
        as [Hquiet _].
      rewrite Hsh, Hhd, Hla in Hquiet.
      destruct (Nat.lt_ge_cases (length (spread_history st)) 4) as [Hlt | Hge].
      * destruct (Hquiet Hlt) as [Hq1 Hq2].
        destruct Hw as [[Hw1 Hw2] | Hw]; [ | lia ].
        left. split; congruence.
      * right. unfold WINDOW_SIZE. lia.
  - split; [ left; split; reflexivity | left; reflexivity ].
Qed.

(** While either symbol has fewer than twenty prices the published
    correlation is [None], so the alert check that follows applies no
    correlation filter. *)
Theorem correlation_needs_20_prices (cfg : config) (ts : string) (st : state) :
  (4 <= length (spread_history st))%nat ->
  (length (btc_prices st) < 20 \/ length (eth_prices st) < 20)%nat ->
  exists dp, last (history_data (update_analytics' cfg ts st)) = Some dp /\
             dp_correlation dp = None.
Proof.
  intros Hlen Hshort.
  destruct (update_analytics_point cfg ts st Hlen) as [Hlast _].
  eexists. split; [ exact Hlast | ]. simpl.
  unfold live_correlation, tail_n. rewrite length_drop.
  assert (Hc : (length (btc_prices st)
                - (length (btc_prices st)
                   - Nat.min (length (btc_prices st)) (length (eth_prices st)))
                <? 20)%nat = true) by (apply Nat.ltb_lt; lia).
  rewrite Hc. reflexivity.
Qed.

(** [update_alerts] either leaves [latest_alert] as it was or writes a
    SIGNAL for the data point: SHORT with a z-score above the entry
    threshold, or LONG with one below its negative, and only when the
    correlation is [None] or not below the minimum. *)
Lemma update_alerts_sound (cfg : config) (data : data_point) (la : latest) :
  update_alerts' cfg data la = la \/
  (la_type (update_alerts' cfg data la) = "SIGNAL" /\
   la_timestamp (update_alerts' cfg data la) = dp_timestamp data /\
   la_z_score (update_alerts' cfg data la) = dp_zscore data /\
   match dp_correlation data with
   | Some c => (c <? min_correlation cfg)%float = false
   | None => True
   end /\
   (((zscore_entry_threshold cfg <? dp_zscore data)%float = true /\
     la_signal (update_alerts' cfg data la) = "SHORT") \/
    ((zscore_entry_threshold cfg <? dp_zscore data)%float = false /\
     (dp_zscore data <? - zscore_entry_threshold cfg)%float = true /\
     la_signal (update_alerts' cfg data la) = "LONG"))).
Proof.
  unfold BinanceWs.update_alerts.
  destruct (dp_correlation data) as [c |].
  - destruct (c <? min_correlation cfg)%float; [ left; reflexivity | ].
    destruct (zscore_entry_threshold cfg <? dp_zscore data)%float; simpl;
      [ right; tauto | ].
    destruct (dp_zscore data <? - zscore_entry_threshold cfg)%float; simpl;
      [ right; tauto | left; reflexivity ].
  - destruct (zscore_entry_threshold cfg <? dp_zscore data)%float; simpl;
      [ right; tauto | ].
    destruct (dp_zscore data <? - zscore_entry_threshold cfg)%float; simpl;
      [ right; tauto | left; reflexivity ].
Qed.

Lemma dropped_message_ignored (cfg : config) (ts : string) (m : message) (st : state) :
  dropped m -> process_message' cfg ts m st = st.
Proof.
  unfold dropped, BinanceWs.process_message.
  destruct (m_p m) as [p |]; [ | reflexivity ].
  intros [Hp | [Hb He]]; [ discriminate Hp | ].
  destruct (m_s m) as [s |]; [ | reflexivity ].
  repeat (destruct s as [| [[] [] [] [] [] [] [] []] s]; try reflexivity);
    exfalso; congruence.
Qed.

(** Messages whose price does not convert to a float, or whose symbol is
    not one of the pair, leave every buffer and the published state as
    they were. *)
Theorem dropped_messages_ignored (cfg : config) (msgs : list (string * message))
    (st : state) :
  Forall (fun tm => dropped tm.2) msgs -> process_all' cfg msgs st = st.
Proof.
  unfold BinanceWs.process_all.
  induction 1 as [| [ts m] msgs Hm Hmsgs IH]; simpl; [ reflexivity | ].
  simpl in Hm. rewrite (dropped_message_ignored cfg ts m st Hm). exact IH.
Qed.

(** An alert written by the live path agrees with the statistics table:
    the row of that data point shows the same signal, and is not marked
    stationary. *)
Theorem live_alert_agrees_with_stats_row (cfg : config) (data : data_point)
    (la : latest) :
  update_alerts' cfg data la <> la ->
  Routes.r_alert (Routes.stats_row_of cfg data)
    = la_signal (update_alerts' cfg data la) /\
  Routes.r_is_stationary (Routes.stats_row_of cfg data) = false.
Proof.
  intros Hchanged.
  destruct (update_alerts_sound cfg data la)
    as [Hsame | (_ & _ & _ & _ & Hsig)]; [ contradiction | ].
  unfold Routes.stats_row_of. simpl.
  assert (Hns : (abs (dp_zscore data) <? zscore_entry_threshold cfg)%float = false).
  { destruct (abs (dp_zscore data) <? zscore_entry_threshold cfg)%float eqn:Ha;
      [ | reflexivity ].
    destruct (FloatFacts.abs_ltb_bounds _ _ Ha) as [H1 H2].
    destruct Hsig as [[Hs _] | (_ & Hl & _)]; congruence. }
  split; [ | exact Hns ].
  destruct Hsig as [[Hs ->] | (Hs & Hl & ->)]; rewrite Hs; [ reflexivity | ].
  rewrite Hl. reflexivity.
Qed.

End LiveMore.

(** With thirty prices of one symbol and five of the other. *)
Lemma correlation_needs_20_prices_witness :
  exists dp,
    last (BinanceWs.history_data
            (BinanceWs.update_analytics AlertEngine.no_text AlertEngine.no_text
               (fun _ _ => 1%float) BinanceWs.default_config "t"
               LiveRuns.lopsided_state)) = Some dp /\
    BinanceWs.dp_correlation dp = None.
Proof.
  apply (correlation_needs_20_prices AlertEngine.no_text AlertEngine.no_text
           (fun _ _ => 1%float) BinanceWs.default_config "t" LiveRuns.lopsided_state).
  - vm_compute. lia.
  - right. vm_compute. lia.
Defined.

(** The session with two spikes, from start-up. *)
Lemma buffers_bounded_witness :
  LiveRuns.bounded
    (BinanceWs.process_all AlertEngine.no_text AlertEngine.no_text
       (fun _ _ => 1%float) BinanceWs.default_config BinanceWs.spike_twice
       (BinanceWs.initial_state [] BinanceWs.mock_alert)).
Proof.
  apply (buffers_bounded AlertEngine.no_text AlertEngine.no_text (fun _ _ => 1%float)).
  unfold LiveRuns.bounded, BinanceWs.WINDOW_SIZE. simpl. lia.
Defined.

(** A price that does not convert, and a trade of another symbol. *)
Lemma dropped_messages_ignored_witness :
  BinanceWs.process_all AlertEngine.no_text AlertEngine.no_text
    (fun _ _ => 1%float) BinanceWs.default_config
    [ ("t1", BinanceWs.mk_message (Some "BTCUSDT") None);
      ("t2", BinanceWs.mk_message (Some "SOLUSDT") (Some 150%float)) ]
    BinanceWs.flat_state
  = BinanceWs.flat_state.
Proof.
  apply (dropped_messages_ignored AlertEngine.no_text AlertEngine.no_text
           (fun _ _ => 1%float)).
  apply Forall_cons. split; [ left; reflexivity | ].
  apply Forall_cons. split; [ right; split; discriminate | apply Forall_nil_2 ].
Defined.

(** A data point with z-score [2.5] and no correlation. *)
Lemma live_alert_agrees_with_stats_row_witness :
  Routes.r_alert
    (Routes.stats_row_of BinanceWs.default_config
       (BinanceWs.mk_data_point "t9" 2.5 5 None 25))
  = BinanceWs.la_signal
      (BinanceWs.update_alerts AlertEngine.no_text AlertEngine.no_text
         BinanceWs.default_config (BinanceWs.mk_data_point "t9" 2.5 5 None 25)
         BinanceWs.mock_alert) /\
  Routes.r_is_stationary
    (Routes.stats_row_of BinanceWs.default_config
       (BinanceWs.mk_data_point "t9" 2.5 5 None 25)) = false.
Proof.
  apply (live_alert_agrees_with_stats_row AlertEngine.no_text AlertEngine.no_text).
  vm_compute. discriminate.
Defined.

(** ** Configuration and the statistics table *)

Module RoutesFacts.
Import Routes.

(** [update_config] answers 400 and leaves [CURRENT_CONFIG] alone, or
    installs the configuration it was sent; what it installs has a
    minimum correlation between 0 and 1 and an entry threshold that is not
    at or below the exit threshold (above it, when both are numbers). *)
Theorem update_config_validates (config current : BinanceWs.config) :
  match (update_config config current).1 with
  | HTTPException code _ => code = 400 /\ (update_config config current).2 = current
  | Ok c =>
      c = config /\ (update_config config current).2 = config /\
      (0 <=? BinanceWs.min_correlation config)%float = true /\
      (BinanceWs.min_correlation config <=? 1)%float = true /\
      (BinanceWs.zscore_entry_threshold config
         <=? BinanceWs.zscore_exit_threshold config)%float = false /\
      (is_nan (BinanceWs.zscore_entry_threshold config) = false ->
       is_nan (BinanceWs.zscore_exit_threshold config) = false ->
       (BinanceWs.zscore_exit_threshold config
          <? BinanceWs.zscore_entry_threshold config)%float = true)
  end.
Proof.
  unfold update_config.
  destruct (_ <=? BinanceWs.zscore_exit_threshold config)%float eqn:Hle;
    [ simpl; auto | ].
  destruct (0 <=? _)%float eqn:H0; simpl; [ | auto ].
  destruct (_ <=? 1)%float eqn:H1; simpl; [ | auto ].
  repeat split; auto.
  intros Hn He. apply FloatFacts.leb_false_ltb; assumption.
Qed.

Lemma head_map_rev {A B : Type} (f : A -> B) (l : list A) :
  head (map f (rev l)) = f <$> last l.
Proof.
  destruct l as [| a l] using rev_ind; [ reflexivity | ].
  rewrite rev_unit, last_snoc. reflexivity.
Qed.

(** The statistics table has one row per data point, the newest first,
    and a row marked stationary never shows an alert. *)
Theorem stats_table_shape (cfg : BinanceWs.config)
    (history_data : list BinanceWs.data_point) :
  length (get_analytics_stats cfg history_data) = length history_data /\
  head (get_analytics_stats cfg history_data)
    = stats_row_of cfg <$> last history_data /\
  forall r, r ∈ get_analytics_stats cfg history_data ->
            r_is_stationary r = true -> r_alert r = "NONE".
Proof.
  unfold get_analytics_stats. split; [ | split ].
  - rewrite length_fmap, length_rev. reflexivity.
  - apply head_map_rev.
  - intros r Hr Hs. apply list_elem_of_fmap in Hr as (point & -> & _).
    unfold stats_row_of in *. simpl in *.
    destruct (FloatFacts.abs_ltb_bounds _ _ Hs) as [H1 H2].
    rewrite H1, H2. reflexivity.
Qed.

End RoutesFacts.

(** ** More on the bar sampler *)

Module SamplerMore.
Import Sampler SamplerFacts SamplerRuns.

(** *** Reading and writing the dictionary *)


Lemma lookup_set_ne (k k' : key) (b : bar) (d : bars) :
  k <> k' -> dict_lookup k (dict_set k' b d) = dict_lookup k d.
Proof.
  intros Hne. induction d as [| [k1 b1] d IH]; simpl.
  - rewrite decide_False by exact Hne. reflexivity.
  - destruct (decide (k' = k1)) as [-> | Hne1]; simpl.
    + rewrite !decide_False by exact Hne. reflexivity.
    + destruct (decide (k = k1)); [ reflexivity | exact IH ].
Qed.

Lemma keys_set (k : key) (b : bar) (d : bars) :
  map fst (dict_set k b d) =
  match dict_lookup k d with
  | Some _ => map fst d
  | None => map fst d ++ [k]
  end.
Proof.
  induction d as [| [k' b'] d IH]; simpl; [ reflexivity | ].
  destruct (decide (k = k')) as [-> | Hne]; simpl; [ reflexivity | ].
  rewrite IH. destruct (dict_lookup k d); reflexivity.
Qed.

Lemma lookup_none_keys (k : key) (d : bars) :
  dict_lookup k d = None -> k ∉ map fst d.
Proof.
  induction d as [| [k' b'] d IH]; simpl; intros Hl.
  - apply not_elem_of_nil.
  - destruct (decide (k = k')) as [-> | Hne]; [ discriminate Hl | ].
    apply not_elem_of_cons. split; [ exact Hne | apply IH, Hl ].
Qed.

Lemma NoDup_keys_set (k : key) (b : bar) (d : bars) :
  NoDup (map fst d) -> NoDup (map fst (dict_set k b d)).
Proof.
  intros Hd. rewrite keys_set.
  destruct (dict_lookup k d) eqn:Hl; [ exact Hd | ].
  apply NoDup_app. split; [ exact Hd | ]. split.
  - intros x Hx Hk. apply list_elem_of_singleton in Hk. subst x.
    exact (lookup_none_keys k d Hl Hx).
  - apply NoDup_singleton.
Qed.

Lemma NoDup_keys_filter (f : key * bar -> bool) (d : bars) :
  NoDup (map fst d) -> NoDup (map fst (List.filter f d)).
Proof.
  induction d as [| [k b] d IH]; simpl; intros Hd; [ exact Hd | ].
  apply NoDup_cons in Hd as [Hk Hd].
  destruct (f (k, b)); simpl; [ | apply IH, Hd ].
  apply NoDup_cons. split; [ | apply IH, Hd ].
  intros Hin. apply Hk.
  apply list_elem_of_fmap in Hin as ([k1 b1] & -> & Hin).
  apply list_elem_of_In, filter_In in Hin as [Hin _].
  apply list_elem_of_fmap. exists (k1, b1). split; [ reflexivity | ].
  apply list_elem_of_In, Hin.
Qed.

(** *** A property of the whole dictionary through a session *)

Section Whole.

Variable I : bars -> Prop.
Hypothesis I_filter : forall (f : key * bar -> bool) (d : bars),
  I d -> I (List.filter f d).
Hypothesis I_set : forall (k : key) (b : bar) (d : bars), I d -> I (dict_set k b d).

Lemma process_timeframe_whole (now : Z) (t : tick) (acc : bars * list finalized)
    (tf : Z) :
  I acc.1 -> I (process_timeframe now t acc tf).1.
Proof.
  intros Hacc. unfold process_timeframe.
  destruct (late now t tf); [ exact Hacc | ].
  destruct (dict_lookup _ acc.1) as [cur |]; [ | apply I_set, Hacc ].
  destruct (_ =? start_time cur); apply I_set, Hacc.
Qed.

Lemma process_tick_whole (c : call) (d : bars) : I d -> I (process_tick c d).1.
Proof.
  intros Hd. unfold process_tick.
  assert (Hs : I (_check_buffer_closures (c_now_sweep c) d).1)
    by (apply I_filter, Hd).
  destruct (c_tick c) as [t |]; [ | exact Hs ].
  generalize dependent (_check_buffer_closures (c_now_sweep c) d).
  induction timeframes as [| tf tfs IH]; intros acc Hacc; simpl; [ exact Hacc | ].
  apply IH, process_timeframe_whole, Hacc.
Qed.

Lemma run_from_whole (cs : list call) : forall st : bars * list finalized,
  I st.1 -> I (run_from cs st).1.
Proof.
  induction cs as [| c cs IH]; intros st Hst; [ exact Hst | ].
  rewrite run_from_cons. apply IH. simpl. apply process_tick_whole, Hst.
Qed.

End Whole.

(** The sampler never holds two active bars for one symbol and
    timeframe. *)
Theorem active_keys_unique (cs : list call) : NoDup (map fst (run cs).1).
Proof.
  apply (run_from_whole (fun d => NoDup (map fst d))).
  - intros f d. apply NoDup_keys_filter.
  - intros k b d. apply NoDup_keys_set.
  - apply NoDup_nil_2.
Qed.

(** Every bar, active or finalized, spans exactly one period of its
    timeframe ([end_time = start_time + timeframe]), counts at least one
    trade, and an active bar is filed under its own symbol. *)
Theorem bars_structured (cs : list call) :
  Forall structured (run cs).1 /\ Forall structured_finalized (run cs).2.
Proof.
  apply (run_from_inv structured structured_finalized (fun _ => True)).
  - intros t tf _. unfold structured, _create_bar. simpl. repeat split; lia.
  - intros t tf b _ (He & Hc & Hs). unfold structured, _update_bar in *.
    simpl in *. repeat split; auto; lia.
  - intros [s tf] b (He & Hc & Hs). unfold structured_finalized, structured in *.
    simpl in *. auto.
  - intros c t _ _. exact I.
  - constructor.
  - constructor.
Qed.

(** *** What one call does to the bar of one key *)

Lemma process_timeframe_other (k : key) (now : Z) (t : tick)
    (acc : bars * list finalized) (tf : Z) :
  (t_symbol t, tf) <> k \/ late now t tf = true ->
  dict_lookup k (process_timeframe now t acc tf).1 = dict_lookup k acc.1.
Proof.
  unfold process_timeframe. intros [Hne | Hlate].
  - destruct (late now t tf); [ reflexivity | ].
    destruct (dict_lookup (t_symbol t, tf) acc.1) as [cur |];
      [ destruct (_ =? start_time cur) | ]; simpl;
      apply lookup_set_ne; congruence.
  - rewrite Hlate. reflexivity.
Qed.


Lemma timeframes_other (k : key) (now : Z) (t : tick) (tfs : list Z) :
  forall acc : bars * list finalized,
  (forall tf, tf ∈ tfs -> (t_symbol t, tf) <> k \/ late now t tf = true) ->
  dict_lookup k (foldl (process_timeframe now t) acc tfs).1 = dict_lookup k acc.1.
Proof.
  induction tfs as [| tf tfs IH]; intros acc Hall; simpl; [ reflexivity | ].
  rewrite IH by (intros tf' Htf'; apply Hall, list_elem_of_further, Htf').
  apply process_timeframe_other, Hall, list_elem_of_here.
Qed.

(** A tick that is late for a timeframe, or of another symbol, leaves
    the bar of that key as the closure sweep left it: it neither reopens
    nor changes it. *)
Theorem untaken_tick_leaves_bar (k : key) (c : call) (d : bars) :
  taken k c = false ->
  dict_lookup k (process_tick c d).1
    = dict_lookup k (_check_buffer_closures (c_now_sweep c) d).1.
Proof.
  unfold taken, process_tick. destruct (c_tick c) as [t |]; [ | reflexivity ].
  intros Htaken. apply timeframes_other. intros tf _.
  destruct (decide ((t_symbol t, tf) = k)) as [<- | Hne]; [ | left; exact Hne ].
  simpl in Htaken. rewrite bool_decide_eq_true_2 in Htaken by reflexivity.
  simpl in Htaken. right. destruct (late (c_now c) t tf); [ reflexivity | discriminate ].
Qed.


(** *** Expiry *)

Lemma process_timeframe_not_ended (sweep now : Z) (t : tick)
    (acc : bars * list finalized) (tf : Z) :
  sweep <= now -> Forall (not_ended sweep) acc.1 ->
  Forall (not_ended sweep) (process_timeframe now t acc tf).1.
Proof.
  intros Hclock Hacc. unfold process_timeframe, late.
  destruct (_ <? now) eqn:Hlate; [ exact Hacc | ].
  apply Z.ltb_ge in Hlate.
  destruct (dict_lookup _ acc.1) as [cur |] eqn:Hl.
  - pose proof (dict_lookup_Forall _ _ _ _ Hacc Hl) as Hcur.
    unfold not_ended in Hcur. simpl in Hcur.
    destruct (_ =? start_time cur); simpl; apply dict_set_Forall; auto;
      unfold not_ended, _update_bar, _create_bar; simpl; lia.
  - simpl. apply dict_set_Forall; auto.
    unfold not_ended, _create_bar. simpl. lia.
Qed.

(** When the clock does not run backwards inside a call, no bar that is
    active after the call had already ended when the call swept: stale
    bars never survive [process_tick]. *)
Theorem no_stale_bar_after_call (c : call) (d : bars) :
  c_now_sweep c <= c_now c ->
  Forall (not_ended (c_now_sweep c)) (process_tick c d).1.
Proof.
  intros Hclock. unfold process_tick.
  assert (Hs : Forall (not_ended (c_now_sweep c))
                 (_check_buffer_closures (c_now_sweep c) d).1).
  { unfold _check_buffer_closures. simpl. apply Forall_forall. intros kb Hkb.
    apply list_elem_of_In, filter_In in Hkb as [_ Hkeep].
    unfold expired in Hkeep. apply Bool.negb_true_iff, Z.ltb_ge in Hkeep.
    exact Hkeep. }
  destruct (c_tick c) as [t |]; [ | exact Hs ].
  generalize dependent (_check_buffer_closures (c_now_sweep c) d).
  induction timeframes as [| tf tfs IH]; intros acc Hacc; simpl; [ exact Hacc | ].
  apply IH, process_timeframe_not_ended; assumption.
Qed.

(** For a timestamp between the epoch and the year 2514, where the
    floating-point floor of the source is exact, the period of a
    timestamp contains it, and is a fixed point of the alignment. *)
Theorem period_contains_timestamp (ts tf : Z) :
  float_exact ts -> 0 < tf ->
  _get_period_start ts tf <= ts < _get_period_start ts tf + seconds tf /\
  _get_period_start (_get_period_start ts tf) tf = _get_period_start ts tf.
Proof.
  intros _ Htf. unfold _get_period_start, seconds.
  assert (Hp : 0 < tf * 1000000) by lia.
  pose proof (Z.mul_div_le ts _ Hp) as Hle.
  pose proof (Z.mul_succ_div_gt ts _ Hp) as Hgt.
  split; [ lia | ].
  rewrite Z.div_mul by lia. reflexivity.
Qed.


(** A tick stamped at 61.5 s that arrives at 90 s is late for the one
    second bars. *)
Lemma untaken_tick_leaves_bar_witness :
  dict_lookup ("BTCUSDT", 1) (process_tick late_call stale_bars).1
    = dict_lookup ("BTCUSDT", 1)
        (_check_buffer_closures (c_now_sweep late_call) stale_bars).1.
Proof.
  apply (untaken_tick_leaves_bar ("BTCUSDT", 1) late_call stale_bars).
  vm_compute. reflexivity.
Defined.

(** The stale bar of [stale_bars] is swept by the late call. *)
Lemma no_stale_bar_after_call_witness :
  Forall (not_ended (c_now_sweep late_call)) (process_tick late_call stale_bars).1.
Proof.
  apply (no_stale_bar_after_call late_call stale_bars).
  vm_compute. discriminate.
Defined.

(** Half past the first second, in one-minute periods. *)
Lemma period_contains_timestamp_witness :
  _get_period_start 61500000 60 <= 61500000
    < _get_period_start 61500000 60 + seconds 60 /\
  _get_period_start (_get_period_start 61500000 60) 60
    = _get_period_start 61500000 60.
Proof.
  apply (period_contains_timestamp 61500000 60).
  - unfold float_exact. lia.
  - lia.
Defined.

End SamplerMore.
